(** * BookVerse (script.js): catalog client, question client and UI controller

    A shallow embedding of [src/script.js].  The script is dynamically typed
    glue around three remote endpoints, so the embedding has three layers:

    - [JS]: the fragment of JavaScript values and operators the script uses
      (JSON values, truthiness, [||], property access, the array and string
      methods it calls, template-literal conversion), with exceptions in the
      error monad [sum exn];
    - [BooksAPI] and [GeminiAPI]: the static methods of the two classes,
      where every [fetch] is answered by an oracle giving the outcome of
      that request;
    - [FavoriteStore]: the favourite toggle over the persisted list;
    - [Grid]: what [loadBooks] writes on the page once its search has
      settled, the cards, markup and notifications of its [try], [catch]
      and [finally];
    - [Controller]: the controller's event loop as a step function over
      its fields, the children of the grid and the requests in flight;
    - [Modal]: the question form and the "read" button of the modal.

    [Vocabulary], [Shapes], [Inputs] and [MoreInputs] then fix the
    predicates and the concrete inputs the properties are stated with, and
    the last part proves them, client by client. *)

From Stdlib Require Import String Ascii List Bool Arith ZArith QArith Lia.
From ExtLib Require Import Structures.Monad Structures.MonadExc.
From ExtLib Require Import Data.Monads.EitherMonad.
Import ListNotations.
Import MonadNotation.
Local Open Scope string_scope.
Local Open Scope monad_scope.
Local Close Scope Q_scope.
Set Warnings "-register-all".

(** ** JavaScript values *)

Module JS.

(** Values that can reach the script: what [JSON.parse] produces, plus
    [undefined] and the object and array literals of the script itself.
    Objects keep their properties in insertion order; the first binding of
    a key is the one a lookup sees. *)
Inductive value : Type :=
| VUndefined
| VNull
| VBool (b : bool)
| VNum (n : Q)
| VStr (s : string)
| VArr (elems : list value)
| VObj (props : list (string * value)).

(** Exceptions the script can meet. *)
Inductive exn : Type :=
| TypeError
| URIError
| FetchRejected
| JsonRejected
| Error (message : string).

(** Computations that may throw: [inl e] is a thrown [e], [inr x] a normal
    completion with [x]. *)
Definition result : Type -> Type := sum exn.

(** [throw e]. *)
Definition throw {A} (e : exn) : result A := inl e.

(** [try { body } catch { handler }]. *)
Definition try_catch {A} (body : result A) (handler : exn -> result A)
  : result A :=
  catch body handler.

(** The parts of the language runtime the script calls but does not define.
    They are kept abstract; [toLowerCase_empty] is the one fact about them
    the development uses. *)
Class Runtime : Type := {
  encodeURIComponent : string -> result string;
  toLowerCase : string -> string;
  toLowerCase_empty : toLowerCase "" = "";
  trim : string -> string;
  number_to_string : Q -> string;
  string_to_number : string -> option Q
}.

(** A length or an index as a number. *)
Definition of_nat (n : nat) : Q := inject_Z (Z.of_nat n).

(** ToBoolean. *)
Definition truthy (v : value) : bool :=
  match v with
  | VUndefined | VNull => false
  | VBool b => b
  | VNum n => negb (Qeq_bool n 0%Q)
  | VStr s => negb (String.eqb s "")
  | VArr _ | VObj _ => true
  end.

(** [a || b] where [b] has no effects. *)
Definition or_else (a b : value) : value :=
  if truthy a then a else b.

(** The value of property [k], [undefined] when there is none. *)
Fixpoint assoc (k : string) (props : list (string * value)) : value :=
  match props with
  | [] => VUndefined
  | (k', v) :: rest => if String.eqb k k' then v else assoc k rest
  end.

(** [l[i]] on an array: [undefined] past the end. *)
Definition nth_value (i : nat) (l : list value) : value :=
  nth i l VUndefined.

(** [s[i]] on a string. *)
Definition char_at (i : nat) (s : string) : value :=
  match String.get i s with
  | Some c => VStr (String c EmptyString)
  | None => VUndefined
  end.

(** [v.key] for a key that is not an array index and not a method name. *)
Definition get (v : value) (key : string) : result value :=
  match v with
  | VUndefined | VNull => throw TypeError
  | VObj props => ret (assoc key props)
  | VArr l =>
      ret (if String.eqb key "length" then VNum (of_nat (List.length l))
           else VUndefined)
  | VStr s =>
      ret (if String.eqb key "length" then VNum (of_nat (String.length s))
           else VUndefined)
  | VBool _ | VNum _ => ret VUndefined
  end.

(** [v?.key]. *)
Definition get_opt (v : value) (key : string) : result value :=
  match v with
  | VUndefined | VNull => ret VUndefined
  | _ => get v key
  end.

(** [v[0]]. *)
Definition get_index0 (v : value) : result value :=
  match v with
  | VUndefined | VNull => throw TypeError
  | VObj props => ret (assoc "0" props)
  | VArr l => ret (nth_value 0 l)
  | VStr s => ret (char_at 0 s)
  | VBool _ | VNum _ => ret VUndefined
  end.

Section WithRuntime.
Context {RT : Runtime}.

(** ToString, as template literals and [join] apply it. *)
Fixpoint to_string (v : value) : string :=
  match v with
  | VUndefined => "undefined"
  | VNull => "null"
  | VBool true => "true"
  | VBool false => "false"
  | VNum n => number_to_string n
  | VStr s => s
  | VArr l =>
      String.concat ","
        (map (fun x => match x with
                       | VUndefined | VNull => ""
                       | _ => to_string x
                       end) l)
  | VObj _ => "[object Object]"
  end.

(** An array element as [Array.prototype.join] renders it. *)
Definition elem_string (x : value) : string :=
  match x with
  | VUndefined | VNull => ""
  | _ => to_string x
  end.

(** [l.join(sep)] on an array. *)
Definition join_list (sep : string) (l : list value) : string :=
  String.concat sep (map elem_string l).

(** ToNumber; [None] is NaN. *)
Definition to_number (v : value) : option Q :=
  match v with
  | VUndefined => None
  | VNull => Some 0%Q
  | VBool b => Some (if b then 1%Q else 0%Q)
  | VNum n => Some n
  | VStr s => string_to_number s
  | VArr _ => string_to_number (to_string v)
  | VObj _ => None
  end.

(** [v > 0]. *)
Definition gt0 (v : value) : bool :=
  match to_number v with
  | Some n => negb (Qle_bool n 0%Q)
  | None => false
  end.

(** [v.join(sep)].  Only arrays have the method; on any other receiver the
    property is missing or is not callable. *)
Definition call_join (v : value) (sep : string) : result string :=
  match v with
  | VArr l => ret (join_list sep l)
  | _ => throw TypeError
  end.

(** [v.slice(0, n)]: arrays and strings have the method. *)
Definition call_slice (v : value) (n : nat) : result value :=
  match v with
  | VArr l => ret (VArr (firstn n l))
  | VStr s => ret (VStr (String.substring 0 n s))
  | _ => throw TypeError
  end.

(** [v.substring(0, n)] evaluated for its effect only. *)
Definition call_substring (v : value) (n : nat) : result value :=
  match v with
  | VStr s => ret (VStr (String.substring 0 n s))
  | _ => throw TypeError
  end.

(** [x && x.length > 0] as a condition. *)
Definition non_empty (x : value) : result bool :=
  if truthy x then len <- get x "length" ;; ret (gt0 len)
  else ret false.

End WithRuntime.

(** [for each element, in order] with a callback that may throw. *)
Fixpoint map_result {A B} (f : nat -> A -> result B) (i : nat) (l : list A)
  : result (list B) :=
  match l with
  | [] => ret []
  | x :: rest =>
      y <- f i x ;;
      ys <- map_result f (S i) rest ;;
      ret (y :: ys)
  end.

(** [v.map((x, index) => ...)]. *)
Definition call_map (v : value) (f : nat -> value -> result value)
  : result value :=
  match v with
  | VArr l => l' <- map_result f 0 l ;; ret (VArr l')
  | _ => throw TypeError
  end.

(** [s.startsWith(p)]. *)
Fixpoint prefix (p s : string) : bool :=
  match p, s with
  | EmptyString, _ => true
  | String a p', String b s' => Ascii.eqb a b && prefix p' s'
  | String _ _, EmptyString => false
  end.

(** [haystack.includes(needle)]. *)
Fixpoint includes (haystack needle : string) : bool :=
  prefix needle haystack ||
  match haystack with
  | EmptyString => false
  | String _ rest => includes rest needle
  end.

(** [s] without its first [n] characters. *)
Fixpoint drop (n : nat) (s : string) : string :=
  match n, s with
  | O, _ => s
  | S n', String _ s' => drop n' s'
  | S _, EmptyString => EmptyString
  end.

(** [s.replace(pat, '')] for a string pattern: the first occurrence is
    removed. *)
Fixpoint remove_first (pat s : string) : string :=
  if prefix pat s then drop (String.length pat) s
  else match s with
       | EmptyString => EmptyString
       | String c rest => String c (remove_first pat rest)
       end.

End JS.

Import JS.

(** ** The network *)

(** What a [fetch] resolves to.  [body = None] stands for a body on which
    [response.json()] rejects. *)
Record response : Type := {
  ok : bool;
  status : Q;
  body : option value
}.

(** The outcome of one request: the promise rejects (transport failure),
    or resolves to a response. *)
Inductive fetch_outcome : Type :=
| Rejected
| Responded (r : response).

(** [await fetch(...)]. *)
Definition await_fetch (o : fetch_outcome) : result response :=
  match o with
  | Rejected => throw FetchRejected
  | Responded r => ret r
  end.

(** [await response.json()]. *)
Definition json (r : response) : result value :=
  match body r with
  | Some v => ret v
  | None => throw JsonRejected
  end.

(** ** BooksAPI *)

Module BooksAPI.

(** The object literals of [getSampleBooks]. *)
Record SampleBook : Type := {
  id : string;
  title : string;
  authors : list string;
  publishedDate : string;
  description : string;
  categories : list string;
  thumbnail : string;
  previewLink : string;
  pageCount : Q;
  averageRating : Q
}.

(** [allBooks] of [getSampleBooks]: the embedded sample list. *)
Definition allBooks : list SampleBook :=
  [ {| id := "OL82565W";
       title := "Harry Potter and the Philosopher's Stone";
       authors := ["J.K. Rowling"];
       publishedDate := "1997";
       description := "Harry Potter discovers he is a wizard and begins his education at Hogwarts School of Witchcraft and Wizardry.";
       categories := ["Fantasy"; "Fiction"];
       thumbnail := "https://covers.openlibrary.org/b/id/10514553-M.jpg";
       previewLink := "https://openlibrary.org/works/OL82565W";
       pageCount := 223%Q;
       averageRating := (45 # 10)%Q |} ].

(** A sample book as the JavaScript object it is. *)
Definition book_value (b : SampleBook) : value :=
  VObj [ ("id", VStr (id b));
         ("title", VStr (title b));
         ("authors", VArr (map VStr (authors b)));
         ("publishedDate", VStr (publishedDate b));
         ("description", VStr (description b));
         ("categories", VArr (map VStr (categories b)));
         ("thumbnail", VStr (thumbnail b));
         ("previewLink", VStr (previewLink b));
         ("pageCount", VNum (pageCount b));
         ("averageRating", VNum (averageRating b)) ].

(** A list of sample books as the array it is. *)
Definition books_value (l : list SampleBook) : value :=
  VArr (map book_value l).

Section WithRuntime.
Context {RT : Runtime}.

(** The filter predicate of [getSampleBooks]. *)
Definition sample_matches (queryLower : string) (book : SampleBook) : bool :=
  includes (toLowerCase (title book)) queryLower
  || existsb (fun author => includes (toLowerCase author) queryLower)
       (authors book).

(** [getSampleBooks(query = '')]. *)
Definition getSampleBooks (query : string) : list SampleBook :=
  if negb (String.eqb query "") then
    let queryLower := toLowerCase query in
    filter (sample_matches queryLower) allBooks
  else allBooks.

(** The address [searchBooks] requests. *)
Definition search_url (query : string) (startIndex maxResults : Q)
  : result string :=
  q <- encodeURIComponent query ;;
  ret ("https://openlibrary.org/search.json?q=" ++ q
       ++ "&page=1&limit=" ++ number_to_string maxResults).

(** The callback of [data.docs.map] in [searchBooks]. *)
Definition search_record (index : nat) (book : value) : result value :=
  key <- get book "key" ;;
  btitle <- get book "title" ;;
  author_name <- get book "author_name" ;;
  first_publish_year <- get book "first_publish_year" ;;
  bdescription <- get book "description" ;;
  subject <- get book "subject" ;;
  bcategories <- (if truthy subject then call_slice subject 3
                  else ret (VArr [VStr "General"])) ;;
  cover_i <- get book "cover_i" ;;
  pages <- get book "number_of_pages_median" ;;
  isbn <- get book "isbn" ;;
  isbn0 <- (if truthy isbn then get_index0 isbn else ret VNull) ;;
  ret (VObj
    [ ("id", or_else key
               (VStr ("book-" ++ number_to_string (of_nat index))));
      ("title", or_else btitle (VStr "Unknown Title"));
      ("authors", or_else author_name (VArr [VStr "Unknown Author"]));
      ("publishedDate", or_else first_publish_year (VStr "Unknown"));
      ("description",
         or_else bdescription
           (VStr "Description available in detailed view"));
      ("categories", bcategories);
      ("thumbnail",
         if truthy cover_i
         then VStr ("https://covers.openlibrary.org/b/id/"
                    ++ to_string cover_i ++ "-M.jpg")
         else VNull);
      ("previewLink", VStr ("https://openlibrary.org" ++ to_string key));
      ("pageCount", or_else pages VNull);
      ("averageRating", VNum 4%Q);
      ("isbn", isbn0) ]).

(** The [try] block of [searchBooks]. *)
Definition searchBooks_try (fetch : string -> fetch_outcome)
    (query : string) (startIndex maxResults : Q) : result value :=
  url <- search_url query startIndex maxResults ;;
  response <- await_fetch (fetch url) ;;
  if negb (ok response) then
    throw (Error ("OpenLibrary API error: "
                  ++ number_to_string (status response)))
  else
    data <- json response ;;
    docs <- get data "docs" ;;
    found <- non_empty docs ;;
    if found then call_map docs search_record
    else ret (books_value (getSampleBooks query)).

(** [searchBooks(query, startIndex = 0, maxResults = 12)]; [fetch] answers
    the request by its address. *)
Definition searchBooks (fetch : string -> fetch_outcome)
    (query : string) (startIndex maxResults : Q) : result value :=
  try_catch (searchBooks_try fetch query startIndex maxResults)
    (fun _ => ret (books_value (getSampleBooks query))).

(** The object a failed author lookup is replaced by. *)
Definition placeholder_author : value :=
  VObj [ ("name", VStr "Unknown Author");
         ("bio", VStr "No biography available");
         ("birth_date", VStr "Unknown") ].

(** The [try] block of the callback of [bookData.authors.map]. *)
Definition author_lookup_try (author_fetch : nat -> string -> fetch_outcome)
    (i : nat) (author : value) : result value :=
  a <- get author "author" ;;
  key <- get a "key" ;;
  authorResponse <-
    await_fetch (author_fetch i
                   ("https://openlibrary.org" ++ to_string key ++ ".json")) ;;
  authorData <- json authorResponse ;;
  name <- get authorData "name" ;;
  bio <- get authorData "bio" ;;
  birth_date <- get authorData "birth_date" ;;
  ret (VObj [ ("name", or_else name (VStr "Unknown Author"));
              ("bio", or_else bio (VStr "No biography available"));
              ("birth_date", or_else birth_date (VStr "Unknown")) ]).

(** The callback of [bookData.authors.map]: one secondary lookup;
    [author_fetch i] answers the request made for the author at index [i]. *)
Definition author_lookup (author_fetch : nat -> string -> fetch_outcome)
    (i : nat) (author : value) : result value :=
  try_catch (author_lookup_try author_fetch i author)
    (fun _ => ret placeholder_author).

(** [bookData.description] normalised to [fullDescription]. *)
Definition full_description (bdescription : value) : result value :=
  if truthy bdescription then
    match bdescription with
    | VStr _ => ret bdescription
    | _ =>
        v <- get bdescription "value" ;;
        ret (or_else v (VStr "Description available"))
    end
  else ret (VStr "No description available").

(** The block "Get author names" of [getBookDetails]: the pair
    [(authors, authorDetails)] it leaves.  [Promise.all] keeps the order
    of the lookups and rejects when one of them does. *)
Definition author_names (author_fetch : nat -> string -> fetch_outcome)
    (bookData : value) : result (value * value) :=
  bauthors <- get bookData "authors" ;;
  listed <- non_empty bauthors ;;
  if (listed : bool) then
    authorDetails <- call_map bauthors (author_lookup author_fetch) ;;
    names <- call_map authorDetails (fun _ author => get author "name") ;;
    ret (names, authorDetails)
  else ret (VArr [VStr "Unknown Author"], VArr []).

(** The object literal [book] of [getBookDetails]. *)
Definition details_record (cleanId : string)
    (bookData fullDescription bauthors authorDetails : value)
  : result value :=
  btitle <- get bookData "title" ;;
  first_publish_date <- get bookData "first_publish_date" ;;
  subjects <- get bookData "subjects" ;;
  bcategories <- (if truthy subjects then call_slice subjects 5
                  else ret (VArr [VStr "General"])) ;;
  covers <- get bookData "covers" ;;
  cover0 <- (if truthy covers then get_index0 covers else ret covers) ;;
  pages <- get bookData "number_of_pages" ;;
  first_sentence <- get bookData "first_sentence" ;;
  links <- get bookData "links" ;;
  excerpts <- get bookData "excerpts" ;;
  ret (VObj
    [ ("id", VStr cleanId);
      ("title", or_else btitle (VStr "Unknown Title"));
      ("authors", bauthors);
      ("authorDetails", authorDetails);
      ("publishedDate", or_else first_publish_date (VStr "Unknown"));
      ("description", fullDescription);
      ("categories", bcategories);
      ("subjects", or_else subjects (VArr []));
      ("thumbnail",
         if truthy cover0
         then VStr ("https://covers.openlibrary.org/b/id/"
                    ++ to_string cover0 ++ "-L.jpg")
         else VNull);
      ("previewLink", VStr ("https://openlibrary.org/works/" ++ cleanId));
      ("pageCount", or_else pages VNull);
      ("averageRating", VNum 4%Q);
      ("firstSentence", or_else first_sentence VNull);
      ("links", or_else links (VArr []));
      ("excerpts", or_else excerpts (VArr [])) ]).

(** [bookId.replace('/works/', '')]. *)
Definition clean_id (bookId : string) : string :=
  remove_first "/works/" bookId.

(** The address [getBookDetails] requests. *)
Definition details_url (bookId : string) : string :=
  "https://openlibrary.org/works/" ++ clean_id bookId ++ ".json".

(** The [try] block of [getBookDetails]. *)
Definition getBookDetails_try (work_fetch : string -> fetch_outcome)
    (author_fetch : nat -> string -> fetch_outcome) (bookId : string)
  : result value :=
  let cleanId := clean_id bookId in
  response <- await_fetch (work_fetch (details_url bookId)) ;;
  if negb (ok response) then
    throw (Error ("OpenLibrary details error: "
                  ++ number_to_string (status response)))
  else
    bookData <- json response ;;
    bdescription <- get bookData "description" ;;
    fullDescription <- full_description bdescription ;;
    named <- author_names author_fetch bookData ;;
    details_record cleanId bookData fullDescription (fst named) (snd named).

(** The [catch] block of [getBookDetails]:
    [getSampleBooks().find(book => book.id === bookId) || getSampleBooks()[0]]. *)
Definition details_fallback (bookId : string) : value :=
  or_else
    (match find (fun book => String.eqb (id book) bookId) (getSampleBooks "")
     with
     | Some book => book_value book
     | None => VUndefined
     end)
    (nth_value 0 (map book_value (getSampleBooks ""))).

(** [getBookDetails(bookId)]. *)
Definition getBookDetails (work_fetch : string -> fetch_outcome)
    (author_fetch : nat -> string -> fetch_outcome) (bookId : string)
  : result value :=
  try_catch (getBookDetails_try work_fetch author_fetch bookId)
    (fun _ => ret (details_fallback bookId)).

End WithRuntime.

End BooksAPI.

(** ** GeminiAPI *)

Module GeminiAPI.

(** Line feed and the double quote, as the templates contain them. *)
Definition nl : string := String (Ascii.ascii_of_nat 10) EmptyString.
Definition dq : string := String (Ascii.ascii_of_nat 34) EmptyString.

(** A template literal written over several source lines. *)
Definition lines (l : list string) : string := String.concat nl l.

Section WithRuntime.
Context {RT : Runtime}.

(** [v ? v.join(', ') : dflt]. *)
Definition joined_or (v : value) (dflt : string) : result string :=
  if truthy v then call_join v ", " else ret dflt.

(** [v || dflt] inside a template. *)
Definition text_or (v : value) (dflt : string) : string :=
  to_string (or_else v (VStr dflt)).

(** [book.subjects ? book.subjects.slice(0, n).join(', ') : dflt]. *)
Definition subjects_text (subjects : value) (n : nat) (dflt : string)
  : result string :=
  if truthy subjects then
    first <- call_slice subjects n ;;
    call_join first ", "
  else ret dflt.

(** The three conditional lines that close [bookInfo]. *)
Definition first_sentence_line (firstSentence : value) : string :=
  if truthy firstSentence
  then "FIRST SENTENCE: " ++ to_string firstSentence
  else "".

Definition author_bio_line (authorDetails : value) : result string :=
  if truthy authorDetails then
    first <- get_index0 authorDetails ;;
    bio <- get_opt first "bio" ;;
    ret ("AUTHOR BIO: " ++ text_or bio "No biography available")
  else ret "".

Definition excerpts_line (excerpts : value) : result string :=
  shown <- non_empty excerpts ;;
  if (shown : bool) then
    texts <- call_map excerpts (fun _ e => get e "excerpt") ;;
    text <- call_join texts nl ;;
    ret ("BOOK EXCERPTS: " ++ text)
  else ret "".

(** The lines of the [bookInfo] template, before [trim]. *)
Definition bookInfo_lines (book : value) : result (list string) :=
  bid <- get book "id" ;;
  btitle <- get book "title" ;;
  bauthors <- get book "authors" ;;
  authorsText <- joined_or bauthors "Unknown Author" ;;
  bpublished <- get book "publishedDate" ;;
  bdescription <- get book "description" ;;
  bcategories <- get book "categories" ;;
  categoriesText <- joined_or bcategories "General" ;;
  bsubjects <- get book "subjects" ;;
  subjectsText <- subjects_text bsubjects 10 "No subjects available" ;;
  bpages <- get book "pageCount" ;;
  bfirst <- get book "firstSentence" ;;
  bdetails <- get book "authorDetails" ;;
  bioLine <- author_bio_line bdetails ;;
  bexcerpts <- get book "excerpts" ;;
  excerptsLine <- excerpts_line bexcerpts ;;
  ret [ "";
        "EXACT BOOK DATA FROM OPENLIBRARY API:";
        "";
        "BOOK ID: " ++ to_string bid;
        "TITLE: " ++ dq ++ to_string btitle ++ dq;
        "AUTHOR(S): " ++ authorsText;
        "PUBLICATION YEAR: " ++ text_or bpublished "Unknown";
        "DESCRIPTION: " ++ text_or bdescription "No description available";
        "CATEGORIES: " ++ categoriesText;
        "SUBJECTS: " ++ subjectsText;
        "PAGE COUNT: " ++ text_or bpages "Unknown";
        first_sentence_line bfirst;
        bioLine;
        excerptsLine;
        "" ].

(** The outer template of [createPrompt] around [bookInfo]. *)
Definition prompt_text (bookInfo question : string) : string :=
  trim (lines
    [ "";
      "You are an expert book analyst. I will provide you with exact book data from the OpenLibrary API, and you must answer the user's question using ONLY this specific book information.";
      "";
      bookInfo;
      "";
      "USER'S SPECIFIC QUESTION: " ++ dq ++ question ++ dq;
      "";
      "CRITICAL INSTRUCTIONS:";
      "1. Use ONLY the book information provided above from OpenLibrary API";
      "2. Do not use any external knowledge or general information about similar books";
      "3. If the OpenLibrary data doesn't contain information to answer the question, clearly state this";
      "4. Be specific and reference the exact data points from the OpenLibrary response";
      "5. If describing the book, use the exact description, categories, and subjects provided";
      "6. If discussing authors, use only the author information from the API";
      "7. Structure your response to be helpful and informative based on the available data";
      "";
      "IMPORTANT: Your response must be based SOLELY on the OpenLibrary data provided above. Do not add any external knowledge.";
      "";
      "Now, please answer the user's question using only the provided OpenLibrary book data:";
      "        " ]).

(** [createPrompt(book, question)]. *)
Definition createPrompt (book : value) (question : string) : result string :=
  infoLines <- bookInfo_lines book ;;
  ret (prompt_text (trim (lines infoLines)) question).

(** [generateFallbackResponse(book, question)]. *)
Definition generateFallbackResponse (book : value) (question : string)
  : result string :=
  btitle <- get book "title" ;;
  bauthors <- get book "authors" ;;
  byText <- joined_or bauthors "Unknown Author" ;;
  authorsText <- joined_or bauthors "Unknown" ;;
  bpublished <- get book "publishedDate" ;;
  bdescription <- get book "description" ;;
  bcategories <- get book "categories" ;;
  categoriesText <- joined_or bcategories "General" ;;
  bsubjects <- get book "subjects" ;;
  subjectsLine <- (if truthy bsubjects then
                     first <- call_slice bsubjects 5 ;;
                     text <- call_join first ", " ;;
                     ret ("• Subjects: " ++ text)
                   else ret "") ;;
  about <- (if truthy bdescription then ret (to_string bdescription)
            else
              related <- joined_or bcategories "general subjects" ;;
              ret ("topics related to " ++ related)) ;;
  ret (lines
    [ "I'm analyzing " ++ dq ++ to_string btitle ++ dq ++ " by " ++ byText
        ++ " based on OpenLibrary data.";
      "";
      "Question: " ++ dq ++ question ++ dq;
      "";
      "OpenLibrary Book Data Available:";
      "• Title: " ++ to_string btitle;
      "• Authors: " ++ authorsText;
      "• Published: " ++ text_or bpublished "Unknown";
      "• Description: " ++ text_or bdescription "No description available";
      "• Categories: " ++ categoriesText;
      subjectsLine;
      "";
      "Based on the OpenLibrary data, this book appears to be about: "
        ++ about ++ ".";
      "";
      "For more specific answers, the complete book would provide additional details." ]).

(** The arguments of the two [console.log] calls that open
    [askQuestionAboutBook]; evaluating them can throw. *)
Definition log_book (book : value) : result unit :=
  _ <- get book "title" ;;
  _ <- get book "title" ;;
  _ <- get book "authors" ;;
  bdescription <- get book "description" ;;
  _ <- match bdescription with
       | VUndefined | VNull => ret VUndefined
       | _ => call_substring bdescription 100
       end ;;
  _ <- get book "categories" ;;
  _ <- get book "subjects" ;;
  ret tt.

(** The branch of [askQuestionAboutBook] taken when [response.ok] is
    false; it always throws. *)
Definition gemini_error (r : response) : result string :=
  errorData <- json r ;;
  err <- get errorData "error" ;;
  message <- get_opt err "message" ;;
  throw (Error ("Gemini API error: " ++ number_to_string (status r) ++ " - "
                ++ text_or message "Unknown error")).

(** [data.candidates && data.candidates[0] && data.candidates[0].content]
    as a condition. *)
Definition has_content (data : value) : result bool :=
  candidates <- get data "candidates" ;;
  if truthy candidates then
    first <- get_index0 candidates ;;
    if truthy first then
      content <- get first "content" ;;
      ret (truthy content)
    else ret false
  else ret false.

(** [data.candidates[0].content.parts[0].text], returned once
    [answer.substring(0, 100)] has succeeded on it, that is, when it is a
    string. *)
Definition first_answer (data : value) : result string :=
  candidates <- get data "candidates" ;;
  first <- get_index0 candidates ;;
  content <- get first "content" ;;
  parts <- get content "parts" ;;
  part <- get_index0 parts ;;
  answer <- get part "text" ;;
  match answer with
  | VStr text => ret text
  | _ => throw TypeError
  end.

(** The [try] block of [askQuestionAboutBook]; [post] answers the request
    by the prompt it carries. *)
Definition askQuestionAboutBook_try (post : string -> fetch_outcome)
    (book : value) (question : string) : result string :=
  _ <- log_book book ;;
  prompt <- createPrompt book question ;;
  response <- await_fetch (post prompt) ;;
  if negb (ok response) then gemini_error response
  else
    data <- json response ;;
    found <- has_content data ;;
    if (found : bool) then first_answer data
    else throw (Error "Invalid response format from Gemini API").

(** [askQuestionAboutBook(book, question)]. *)
Definition askQuestionAboutBook (post : string -> fetch_outcome)
    (book : value) (question : string) : result string :=
  try_catch (askQuestionAboutBook_try post book question)
    (fun _ => generateFallbackResponse book question).

End WithRuntime.

End GeminiAPI.

(** ** A runtime to evaluate with *)

(** An executable [Runtime] for ASCII text and decimal numbers, which is
    what the sample data and the examples below consist of. *)
Module AsciiRuntime.

(** [toLowerCase] on ASCII letters. *)
Definition is_upper (c : ascii) : bool :=
  let n := nat_of_ascii c in (65 <=? n)%nat && (n <=? 90)%nat.

Definition lower_char (c : ascii) : ascii :=
  if is_upper c then ascii_of_nat (nat_of_ascii c + 32) else c.

Fixpoint lower (s : string) : string :=
  match s with
  | EmptyString => EmptyString
  | String c rest => String (lower_char c) (lower rest)
  end.

(** [trim] for the ASCII white space: tab to carriage return, and space. *)
Definition is_space (c : ascii) : bool :=
  let n := nat_of_ascii c in
  ((9 <=? n)%nat && (n <=? 13)%nat) || (n =? 32)%nat.

Fixpoint trim_start (s : string) : string :=
  match s with
  | EmptyString => EmptyString
  | String c rest => if is_space c then trim_start rest else s
  end.

Fixpoint trim_end (s : string) : string :=
  match s with
  | EmptyString => EmptyString
  | String c rest =>
      match trim_end rest with
      | EmptyString => if is_space c then EmptyString
                       else String c EmptyString
      | kept => String c kept
      end
  end.

(** [encodeURIComponent]: every byte but the unreserved characters is
    percent-encoded. *)
Definition is_unreserved (c : ascii) : bool :=
  let n := nat_of_ascii c in
  ((48 <=? n)%nat && (n <=? 57)%nat)
  || ((65 <=? n)%nat && (n <=? 90)%nat)
  || ((97 <=? n)%nat && (n <=? 122)%nat)
  || existsb (Nat.eqb n) [45; 95; 46; 33; 126; 42; 39; 40; 41].

Definition hex_digit (n : nat) : ascii :=
  if (n <? 10)%nat then ascii_of_nat (48 + n) else ascii_of_nat (55 + n).

Fixpoint percent_encode (s : string) : string :=
  match s with
  | EmptyString => EmptyString
  | String c rest =>
      if is_unreserved c then String c (percent_encode rest)
      else
        let n := nat_of_ascii c in
        String "%" (String (hex_digit (n / 16))
                      (String (hex_digit (n mod 16)) (percent_encode rest)))
  end.

(** Decimal digits of a natural number, most significant first. *)
Fixpoint digits (fuel : nat) (n : N) (acc : string) : string :=
  match fuel with
  | O => acc
  | S fuel' =>
      let acc' := String (ascii_of_N (48 + n mod 10)) acc in
      if (n <? 10)%N then acc' else digits fuel' (n / 10)%N acc'
  end.

Definition N_string (n : N) : string := digits (S (N.size_nat n)) n "".

(** Digits after the decimal point of [r / d], for [r < d]. *)
Fixpoint fraction (fuel : nat) (r d : N) : string :=
  match fuel with
  | O => ""
  | S fuel' =>
      if (r =? 0)%N then ""
      else String (ascii_of_N (48 + (10 * r) / d))
             (fraction fuel' ((10 * r) mod d)%N d)
  end.

(** Integers print in decimal, other numbers with up to twenty digits
    after the point. *)
Definition show_number (q : Q) : string :=
  let sign := if (Qnum q <? 0)%Z then "-" else "" in
  let n := Z.abs_N (Qnum q) in
  let d := Npos (Qden q) in
  let whole := N_string (n / d) in
  if ((n mod d) =? 0)%N then sign ++ whole
  else sign ++ whole ++ "." ++ fraction 20 (n mod d) d.

(** The number a string of decimal digits stands for. *)
Fixpoint read_digits (s : string) (acc : N) : option N :=
  match s with
  | EmptyString => Some acc
  | String c rest =>
      let n := N_of_ascii c in
      if ((48 <=? n) && (n <=? 57))%N
      then read_digits rest (10 * acc + (n - 48))%N
      else None
  end.

(** Strings of decimal digits read as numbers (the empty string as 0);
    any other string is not a number. *)
Definition read_number (s : string) : option Q :=
  option_map (fun n => inject_Z (Z.of_N n)) (read_digits s 0%N).

#[export] Instance runtime : Runtime := {|
  encodeURIComponent := fun s => inr (percent_encode s);
  toLowerCase := lower;
  toLowerCase_empty := eq_refl;
  trim := fun s => trim_end (trim_start s);
  number_to_string := show_number;
  string_to_number := read_number
|}.

End AsciiRuntime.

(** ** Favourites *)

Module FavoriteStore.

(** What [toggleFavorite] reads and writes: the class of the button's icon
    and the [bookFavorites] entry of local storage, decoded ([None] when
    the key is absent). *)
Record state : Type := {
  icon_fas : bool;
  bookFavorites : option (list string)
}.

(** [JSON.parse(localStorage.getItem('bookFavorites') || '[]')]. *)
Definition favorites (st : state) : list string :=
  match bookFavorites st with
  | Some l => l
  | None => []
  end.

(** [favorites.indexOf(bookId)]; [None] is -1. *)
Fixpoint indexOf (bookId : string) (l : list string) : option nat :=
  match l with
  | [] => None
  | x :: rest =>
      if String.eqb x bookId then Some O
      else option_map S (indexOf bookId rest)
  end.

(** [favorites.splice(index, 1)]. *)
Fixpoint splice1 (index : nat) (l : list string) : list string :=
  match index, l with
  | _, [] => []
  | O, _ :: rest => rest
  | S i, x :: rest => x :: splice1 i rest
  end.

(** [favorites.includes(bookId)]. *)
Definition includes_id (bookId : string) (l : list string) : bool :=
  existsb (String.eqb bookId) l.

(** [toggleFavorite(bookId, button)]. *)
Definition toggleFavorite (bookId : string) (st : state) : state :=
  let isFavorited := icon_fas st in
  if negb isFavorited then
    let l := favorites st in
    {| icon_fas := true;
       bookFavorites :=
         if negb (includes_id bookId l) then Some (l ++ [bookId])%list
         else bookFavorites st |}
  else
    let l := favorites st in
    {| icon_fas := false;
       bookFavorites :=
         match indexOf bookId l with
         | Some index => Some (splice1 index l)
         | None => bookFavorites st
         end |}.

End FavoriteStore.


(** ** The result grid

    What [loadBooks] writes on the page once [searchBooks] has settled:
    the cards [createBookCard] builds, which may throw, the markup
    assigned to [innerHTML], the "load more" button, the loading
    indicator and the notifications. *)

Module Grid.
Import GeminiAPI.

(** What the grid holds: the cards [displayBooks] appends, or the markup
    [loadBooks] assigns to [innerHTML]. *)
Inductive element : Type :=
| Card (innerHTML : string)
| Markup (html : string).

(** The part of the page [loadBooks] writes: the children of
    [booksContainer], whether the "load more" button is displayed and
    whether it is disabled, whether the loading indicator is displayed,
    and the notifications shown so far, each with its type. *)
Record state : Type := {
  booksContainer : list element;
  loadMoreShown : bool;
  loadMoreDisabled : bool;
  booksLoading : bool;
  notifications : list (string * string)
}.

(** The markup and the text [loadBooks] shows when nothing was found and
    when loading failed. *)
Definition no_results_html : string :=
  "<p class=" ++ dq ++ "no-results" ++ dq
  ++ ">No books found. Try a different search.</p>".

Definition error_html : string :=
  "<p class=" ++ dq ++ "error" ++ dq
  ++ ">Error loading books. Please try again.</p>".

Definition error_notice : string :=
  "Error loading from OpenLibrary. Using sample data.".

Section WithRuntime.
Context {RT : Runtime}.

(** The [innerHTML] [createBookCard(book)] gives the card. *)
Definition createBookCard (book : value) : result string :=
  btitle <- get book "title" ;;
  bauthors <- get book "authors" ;;
  author <- (if truthy bauthors then call_join bauthors ", "
             else ret "Unknown Author") ;;
  byear <- get book "publishedDate" ;;
  bthumbnail <- get book "thumbnail" ;;
  bid <- get book "id" ;;
  let title := or_else btitle (VStr "Unknown Title") in
  let year := or_else byear (VStr "Unknown") in
  let coverUrl := or_else bthumbnail VNull in
  ret (lines
    [ "";
      "            <div class=" ++ dq ++ "book-cover" ++ dq ++ ">";
      "                "
        ++ (if truthy coverUrl
            then "<img src=" ++ dq ++ to_string coverUrl ++ dq
                 ++ " alt=" ++ dq ++ to_string title ++ dq
                 ++ " onerror=" ++ dq
                 ++ "this.style.display='none'; this.nextElementSibling.style.display='flex';"
                 ++ dq ++ ">"
            else "");
      "                <div class=" ++ dq ++ "book-image-placeholder" ++ dq
        ++ " "
        ++ (if truthy coverUrl
            then "style=" ++ dq ++ "display: none;" ++ dq
            else "")
        ++ ">";
      "                    <i class=" ++ dq ++ "fas fa-book" ++ dq ++ "></i>";
      "                </div>";
      "            </div>";
      "            <div class=" ++ dq ++ "book-info" ++ dq ++ ">";
      "                <h3 class=" ++ dq ++ "book-title" ++ dq ++ ">"
        ++ to_string title ++ "</h3>";
      "                <p class=" ++ dq ++ "book-author" ++ dq ++ ">by "
        ++ author ++ "</p>";
      "                <p class=" ++ dq ++ "book-year" ++ dq ++ ">Published: "
        ++ to_string year ++ "</p>";
      "                <div class=" ++ dq ++ "book-actions" ++ dq ++ ">";
      "                    <button class=" ++ dq
        ++ "btn btn-primary view-book-btn" ++ dq ++ " data-id=" ++ dq
        ++ to_string bid ++ dq ++ ">";
      "                        <i class=" ++ dq ++ "fas fa-eye" ++ dq
        ++ "></i> View Details";
      "                    </button>";
      "                    <button class=" ++ dq
        ++ "btn btn-outline favorite-btn" ++ dq ++ " data-id=" ++ dq
        ++ to_string bid ++ dq ++ ">";
      "                        <i class=" ++ dq ++ "far fa-heart" ++ dq
        ++ "></i> Favorite";
      "                    </button>";
      "                </div>";
      "            </div>";
      "        " ]).

(** [books.forEach(book => ...)] of [displayBooks]: the cards are appended
    one by one; an exception leaves the cards appended before it. *)
Fixpoint append_cards (books : list value) (grid : list element)
  : list element * option exn :=
  match books with
  | [] => (grid, None)
  | book :: rest =>
      match createBookCard book with
      | inr html => append_cards rest (grid ++ [Card html])%list
      | inl e => (grid, Some e)
      end
  end.

(** [displayBooks(books, clearContainer)]: the grid it leaves and the
    exception it ends with, if any. *)
Definition displayBooks (books : value) (clear : bool) (grid : list element)
  : list element * option exn :=
  let emptied := if clear then [] else grid in
  match books with
  | VArr l => append_cards l emptied
  | _ => (emptied, Some TypeError)
  end.

(** The text of the notification of success. *)
Definition found_message (books : value) (query : string) : result string :=
  len <- get books "length" ;;
  ret ("Found " ++ to_string len ++ " books for " ++ dq ++ query ++ dq
       ++ " from OpenLibrary").

(** [showNotification(message, type)]. *)
Definition showNotification (message type : string) (st : state) : state :=
  {| booksContainer := booksContainer st;
     loadMoreShown := loadMoreShown st;
     loadMoreDisabled := loadMoreDisabled st;
     booksLoading := booksLoading st;
     notifications := (notifications st ++ [(message, type)])%list |}.

(** A grid with its children replaced. *)
Definition with_children (children : list element) (st : state) : state :=
  {| booksContainer := children;
     loadMoreShown := loadMoreShown st;
     loadMoreDisabled := loadMoreDisabled st;
     booksLoading := booksLoading st;
     notifications := notifications st |}.

(** [this.loadMoreBtn.style.display = ...]. *)
Definition with_load_more (shown : bool) (st : state) : state :=
  {| booksContainer := booksContainer st;
     loadMoreShown := shown;
     loadMoreDisabled := loadMoreDisabled st;
     booksLoading := booksLoading st;
     notifications := notifications st |}.

(** The [try] block of [loadBooks] after the [await]: the page it leaves
    and the exception it ends with, if any.  [books] is what [searchBooks]
    returned or threw, [query] is [currentSearchQuery] at that time. *)
Definition loadBooks_try (books : result value) (clear : bool)
    (query : string) (st : state) : state * option exn :=
  match books with
  | inl e => (st, Some e)
  | inr books =>
      match non_empty books with
      | inl e => (st, Some e)
      | inr true =>
          match displayBooks books clear (booksContainer st) with
          | (grid, Some e) => (with_children grid st, Some e)
          | (grid, None) =>
              let shown := with_load_more true (with_children grid st) in
              match found_message books query with
              | inr message =>
                  (showNotification message "success" shown, None)
              | inl e => (shown, Some e)
              end
          end
      | inr false =>
          (with_load_more false
             (if clear then with_children [Markup no_results_html] st
              else st),
           None)
      end
  end.

(** The [catch] block of [loadBooks]: the page it leaves and the exception
    that escapes it, if any. *)
Definition loadBooks_catch (clear : bool) (query : string) (st : state)
  : state * option exn :=
  let marked :=
    if clear then with_children [Markup error_html] st else st in
  let notified := showNotification error_notice "error" marked in
  let sampleBooks := BooksAPI.getSampleBooks query in
  match sampleBooks with
  | [] => (notified, None)
  | _ :: _ =>
      match displayBooks (BooksAPI.books_value sampleBooks) clear
              (booksContainer notified) with
      | (grid, err) => (with_children grid notified, err)
      end
  end.

(** The [finally] block of [loadBooks]. *)
Definition loadBooks_finally (st : state) : state :=
  {| booksContainer := booksContainer st;
     loadMoreShown := loadMoreShown st;
     loadMoreDisabled := false;
     booksLoading := false;
     notifications := notifications st |}.

(** [loadBooks(clearContainer)] from its [await] on: the page it leaves
    and the exception that escapes it, if any. *)
Definition loadBooks_rest (books : result value) (clear : bool)
    (query : string) (st : state) : state * option exn :=
  match loadBooks_try books clear query st with
  | (st', None) => (loadBooks_finally st', None)
  | (st', Some _) =>
      match loadBooks_catch clear query st' with
      | (st'', escaped) => (loadBooks_finally st'', escaped)
      end
  end.

End WithRuntime.

End Grid.

(** ** The controller *)

Module Controller.

(** A catalog search in flight, with the [clearContainer] argument of the
    [loadBooks] call that is waiting for it. *)
Record search_request : Type := {
  query : string;
  startIndex : Q;
  clearContainer : bool
}.

(** The fields of [BookVerseApp] the handlers read and write, the
    children of the result grid, and the requests that have been started
    and have not settled yet. *)
Record state : Type := {
  currentBook : value;
  currentPage : nat;
  currentSearchQuery : string;
  isLoading : bool;
  booksContainer : list Grid.element;
  searches : list search_request;
  details : list string
}.

(** What can happen next: a user action, or the settling of a request in
    flight (chosen by its position), with the answers the network gave. *)
Inductive event : Type :=
| SearchClick (input : string)
| GlobalSearchClick (input : string)
| LoadMoreClick
| ViewBookClick (bookId : string)
| CloseModalClick
| SearchSettled (k : nat) (fetch : string -> fetch_outcome)
| DetailsSettled (k : nat) (work_fetch : string -> fetch_outcome)
    (author_fetch : nat -> string -> fetch_outcome).

(** [l] without its element at position [k]. *)
Fixpoint remove_nth {A} (k : nat) (l : list A) : list A :=
  match k, l with
  | _, [] => []
  | O, _ :: rest => rest
  | S k', x :: rest => x :: remove_nth k' rest
  end.

Section WithRuntime.
Context {RT : Runtime}.

(** [loadBooks(clearContainer)] up to its [await]. *)
Definition loadBooks (clear : bool) (st : state) : state :=
  if isLoading st then st
  else
    {| currentBook := currentBook st;
       currentPage := currentPage st;
       currentSearchQuery := currentSearchQuery st;
       isLoading := true;
       booksContainer := booksContainer st;
       searches :=
         (searches st
          ++ [ {| query := currentSearchQuery st;
                  startIndex := of_nat (currentPage st * 12);
                  clearContainer := clear |} ])%list;
       details := details st |}.

(** [handleSearch] and [handleGlobalSearch]. *)
Definition handleSearch (input : string) (st : state) : state :=
  let typed := trim input in
  loadBooks true
    {| currentBook := currentBook st;
       currentPage := 0;
       currentSearchQuery :=
         if negb (String.eqb typed "") then typed else "harry potter";
       isLoading := isLoading st;
       booksContainer := [];
       searches := searches st;
       details := details st |}.

(** [loadMoreBooks]. *)
Definition loadMoreBooks (st : state) : state :=
  if isLoading st then st
  else
    loadBooks false
      {| currentBook := currentBook st;
         currentPage := S (currentPage st);
         currentSearchQuery := currentSearchQuery st;
         isLoading := isLoading st;
         booksContainer := booksContainer st;
         searches := searches st;
         details := details st |}.

(** [openBookModal(bookId)] up to its [await]. *)
Definition openBookModal (bookId : string) (st : state) : state :=
  {| currentBook := currentBook st;
     currentPage := currentPage st;
     currentSearchQuery := currentSearchQuery st;
     isLoading := isLoading st;
     booksContainer := booksContainer st;
     searches := searches st;
     details := (details st ++ [bookId])%list |}.

(** [closeModal]. *)
Definition closeModal (st : state) : state :=
  {| currentBook := VNull;
     currentPage := currentPage st;
     currentSearchQuery := currentSearchQuery st;
     isLoading := isLoading st;
     booksContainer := booksContainer st;
     searches := searches st;
     details := details st |}.

(** The page [loadBooks] is waiting on: the children the controller
    keeps, the loading indicator displayed and the "load more" button
    disabled as [loadBooks] left them before its [await].  What else the
    page shows, the display of the "load more" button and the
    notifications, the controller does not keep; it is taken blank. *)
Definition waiting_page (st : state) : Grid.state :=
  {| Grid.booksContainer := booksContainer st;
     Grid.loadMoreShown := false;
     Grid.loadMoreDisabled := true;
     Grid.booksLoading := true;
     Grid.notifications := [] |}.

(** The children of the grid after [loadBooks] has its answer: those
    [Grid.loadBooks_rest] leaves, card by card, with its [catch] block
    when a card cannot be built.  They depend on no other part of the
    page. *)
Definition rendered (answer : result value) (req : search_request)
    (st : state) : list Grid.element :=
  Grid.booksContainer
    (fst (Grid.loadBooks_rest answer (clearContainer req)
            (currentSearchQuery st) (waiting_page st))).

(** The rest of [loadBooks], run when the search at position [k] settles;
    its [finally] block lowers the flag. *)
Definition searchSettled (k : nat) (fetch : string -> fetch_outcome)
    (st : state) : state :=
  match nth_error (searches st) k with
  | None => st
  | Some req =>
      let answer :=
        BooksAPI.searchBooks fetch (query req) (startIndex req) 12%Q in
      {| currentBook := currentBook st;
         currentPage := currentPage st;
         currentSearchQuery := currentSearchQuery st;
         isLoading := false;
         booksContainer := rendered answer req st;
         searches := remove_nth k (searches st);
         details := details st |}
  end.

(** The rest of [openBookModal], run when the detail fetch at position
    [k] settles. *)
Definition detailsSettled (k : nat) (work_fetch : string -> fetch_outcome)
    (author_fetch : nat -> string -> fetch_outcome) (st : state) : state :=
  match nth_error (details st) k with
  | None => st
  | Some bookId =>
      {| currentBook :=
           match BooksAPI.getBookDetails work_fetch author_fetch bookId with
           | inr book => book
           | inl _ => currentBook st
           end;
         currentPage := currentPage st;
         currentSearchQuery := currentSearchQuery st;
         isLoading := isLoading st;
         booksContainer := booksContainer st;
         searches := searches st;
         details := remove_nth k (details st) |}
  end.

(** One turn of the event loop. *)
Definition step (st : state) (ev : event) : state :=
  match ev with
  | SearchClick input => handleSearch input st
  | GlobalSearchClick input => handleSearch input st
  | LoadMoreClick => loadMoreBooks st
  | ViewBookClick bookId => openBookModal bookId st
  | CloseModalClick => closeModal st
  | SearchSettled k fetch => searchSettled k fetch st
  | DetailsSettled k work_fetch author_fetch =>
      detailsSettled k work_fetch author_fetch st
  end.

(** The constructor, then [init()], whose [loadBooks()] starts the first
    search. *)
Definition start : state :=
  loadBooks true
    {| currentBook := VNull;
       currentPage := 0;
       currentSearchQuery := "harry potter";
       isLoading := false;
       booksContainer := [];
       searches := [];
       details := [] |}.

(** The state after a sequence of events. *)
Definition run (evs : list event) : state := fold_left step evs start.

(** Requests in flight. *)
Definition loads_in_flight (st : state) : nat :=
  List.length (searches st) + List.length (details st).

End WithRuntime.

End Controller.

(** ** The modal: the question form and the "read" button *)

Module Modal.
Import GeminiAPI.

(** The part of the modal [handleAISearch] writes: the text of the answer,
    whether the loading indicator is displayed, and the notifications
    shown so far. *)
Record state : Type := {
  aiResponseText : string;
  aiLoading : bool;
  notifications : list (string * string)
}.

(** What a click on the "read" button does. *)
Inductive read_action : Type :=
| OpenWindow (link : value)
| Alert (message : string)
| NoAction.

Section WithRuntime.
Context {RT : Runtime}.

(** [error.message] of a caught exception, which the engine words. *)
Variable error_message : exn -> string.



(** The listener of the "read" button. *)
Definition readBook (currentBook : value) : result read_action :=
  if truthy currentBook then
    link <- get currentBook "previewLink" ;;
    if truthy link then ret (OpenWindow link)
    else
      btitle <- get currentBook "title" ;;
      ret (Alert ("No preview available for " ++ dq ++ to_string btitle ++ dq
                  ++ ". Visit OpenLibrary for more details."))
  else ret NoAction.

End WithRuntime.

End Modal.

(** * The vocabulary of the properties *)

Module Vocabulary.

(** The computation completed normally. *)
Definition is_inr {A} (r : result A) : bool :=
  match r with
  | inr _ => true
  | inl _ => false
  end.


(** A failed author lookup, as a failed request is everywhere else:
    transport failure, a non-success status, or a body that does not
    parse. *)
Definition lookup_failed (o : fetch_outcome) : bool :=
  match o with
  | Rejected => true
  | Responded r =>
      negb (ok r) || match body r with None => true | Some _ => false end
  end.



(** Transport failure, a non-success status, or a body that does not
    parse. *)
Definition fetch_failed (o : fetch_outcome) : bool :=
  match o with
  | Rejected => true
  | Responded r =>
      negb (ok r) || match body r with None => true | Some _ => false end
  end.

(** A successful answer to a search that lists no document. *)
Definition zero_results (o : fetch_outcome) : bool :=
  match o with
  | Rejected => false
  | Responded r =>
      ok r &&
      match body r with
      | Some (VObj props) =>
          match assoc "docs" props with
          | VUndefined | VNull | VArr [] => true
          | _ => false
          end
      | _ => false
      end
  end.

(** The keys every book record carries, whichever path built it. *)
Definition record_keys : list string :=
  [ "id"; "title"; "authors"; "publishedDate"; "description"; "categories";
    "thumbnail"; "previewLink"; "pageCount"; "averageRating" ].

(** The object has a property named [k]. *)
Definition has_key (k : string) (props : list (string * value)) : bool :=
  existsb (fun kv => String.eqb k (fst kv)) props.

(** An object with every key of [record_keys]. *)
Definition is_book_record (v : value) : bool :=
  match v with
  | VObj props => forallb (fun k => has_key k props) record_keys
  | _ => false
  end.

(** A field that is a list when it is there at all. *)
Definition list_or_absent (v : value) : bool :=
  match v with
  | VArr _ => true
  | _ => negb (truthy v)
  end.

(** A book record whose list-valued fields are lists. *)
Definition well_formed_book (book : value) : bool :=
  match book with
  | VObj props =>
      list_or_absent (assoc "authors" props)
      && list_or_absent (assoc "categories" props)
      && list_or_absent (assoc "subjects" props)
  | _ => false
  end.


(** No excerpt: the field is absent or is the empty list. *)
Definition no_excerpts (v : value) : bool :=
  match v with
  | VArr [] => true
  | _ => negb (truthy v)
  end.

(** The flag is up exactly while one search is in flight, and no more
    than one ever is. *)
Definition guarded (st : Controller.state) : Prop :=
  (Controller.isLoading st = true
   /\ List.length (Controller.searches st) = 1)
  \/ (Controller.isLoading st = false /\ Controller.searches st = []).

Section WithRuntime.
Context {RT : Runtime}.


(** The address of the lookup for the author reference with key [key]. *)
Definition author_url (key : value) : string :=
  "https://openlibrary.org" ++ to_string key ++ ".json".

(** A failed call: transport failure, a non-success status, a body that
    does not parse, or a body with no text at
    [candidates[0].content.parts[0].text]. *)
Definition call_failed (o : fetch_outcome) : bool :=
  match o with
  | Rejected => true
  | Responded r =>
      negb (ok r)
      || match body r with
         | None => true
         | Some data => negb (is_inr (GeminiAPI.first_answer data))
         end
  end.

End WithRuntime.

End Vocabulary.

(** * Concrete inputs *)

Module Inputs.
Import BooksAPI.

#[local] Existing Instance AsciiRuntime.runtime.

(** [getSampleBooks()[0]]. *)
Definition harry_potter : value :=
  nth_value 0 (map book_value (getSampleBooks "")).

(** A search answer with one document. *)
Definition one_document (doc : value) : fetch_outcome :=
  Responded {| ok := true; status := 200%Q;
               body := Some (VObj [("docs", VArr [doc])]) |}.

(** A work with two authors, and a network on which the lookup of the
    first author fails and the lookup of the second succeeds. *)
Definition two_author_work : value :=
  VObj [ ("title", VStr "Good Omens");
         ("authors",
            VArr [ VObj [("author", VObj [("key", VStr "/authors/OL1A")])];
                   VObj [("author", VObj [("key", VStr "/authors/OL2A")])] ]) ].

(** The answer of the work endpoint carrying that work. *)
Definition two_author_response : response :=
  {| ok := true; status := 200%Q; body := Some two_author_work |}.

(** The author endpoint: the first lookup is rejected, every other one
    resolves a name. *)
Definition second_author_only (i : nat) (url : string) : fetch_outcome :=
  match i with
  | 0 => Rejected
  | _ =>
      Responded {| ok := true; status := 200%Q;
                   body := Some (VObj [("name", VStr "Neil Gaiman")]) |}
  end.

(** The properties of the sample book, as an object. *)
Definition harry_potter_props : list (string * value) :=
  match harry_potter with
  | VObj props => props
  | _ => []
  end.

(** A search document with an empty subject list. *)
Definition doc_without_subjects : value :=
  VObj [ ("key", VStr "/works/OL1W"); ("title", VStr "T");
         ("subject", VArr []) ].

(** The answer of the work endpoint for a work with an empty subject
    list. *)
Definition work_without_subjects : fetch_outcome :=
  Responded
    {| ok := true; status := 200%Q;
       body := Some (VObj [ ("title", VStr "T"); ("subjects", VArr []) ]) |}.

(** A search document with four subjects, and the same for a work. *)
Definition four_subjects : value :=
  VArr [VStr "Fantasy"; VStr "Magic"; VStr "Wizards"; VStr "Schools"].

Definition doc_with_subjects : value :=
  VObj [ ("key", VStr "/works/OL82565W"); ("subject", four_subjects) ].

Definition work_with_subjects : value :=
  VObj [ ("title", VStr "T"); ("subjects", four_subjects) ].

End Inputs.

(** * More vocabulary *)

Module Shapes.



(** A book [createBookCard] can render: not [null], and with authors that
    are absent or a list. *)
Definition renders (book : value) : bool :=
  match book with
  | VUndefined | VNull => false
  | _ =>
      match get book "authors" with
      | inr bauthors => Vocabulary.list_or_absent bauthors
      | inl _ => false
      end
  end.

(** The property [key] of [v] is there and truthy. *)
Definition filled (v : value) (key : string) : Prop :=
  exists field, get v key = inr field /\ truthy field = true.

(** A description the logging of [askQuestionAboutBook] can abbreviate: a
    string, or none. *)
Definition plain_description (v : value) : bool :=
  match v with
  | VStr _ | VUndefined | VNull => true
  | _ => false
  end.



(** A request as [loadBooks] issues them: a query that is not empty, an
    offset that is a multiple of twelve, and the grid is to be replaced
    exactly when the offset is zero. *)
Definition issued (req : Controller.search_request) : Prop :=
  Controller.query req <> ""
  /\ exists page,
       Controller.startIndex req = of_nat (page * 12)
       /\ Controller.clearContainer req = Nat.eqb page 0.

(** The invariant of the controller behind [issued]. *)
Definition tidy (st : Controller.state) : Prop :=
  Controller.currentSearchQuery st <> ""
  /\ Forall issued (Controller.searches st).

End Shapes.

(** ** More concrete inputs *)

Module MoreInputs.
Import BooksAPI GeminiAPI.

#[local] Existing Instance AsciiRuntime.runtime.



(** The record of [Inputs.doc_with_subjects] found at position 0. *)
Definition record_with_subjects : value :=
  match search_record 0 Inputs.doc_with_subjects with
  | inr rec => rec
  | inl _ => VUndefined
  end.

(** A search document that has a title only, and its record at
    position 3. *)
Definition doc_without_key : value := VObj [("title", VStr "T")].

Definition record_without_key : value :=
  match search_record 3 doc_without_key with
  | inr rec => rec
  | inl _ => VUndefined
  end.

(** An author reference, and an author endpoint that answers with a name
    under the given status. *)
Definition gaiman_ref : value :=
  VObj [("author", VObj [("key", VStr "/authors/OL2A")])].

Definition gaiman_with_status (ok : bool) (status : Q)
    (i : nat) (url : string) : fetch_outcome :=
  Responded {| ok := ok; status := status;
               body := Some (VObj [("name", VStr "Neil Gaiman")]) |}.

(** A work with that one author, and the answer of the work endpoint
    carrying it. *)
Definition one_author_response : response :=
  {| ok := true; status := 200%Q;
     body := Some (VObj [ ("title", VStr "Coraline");
                          ("authors", VArr [gaiman_ref]) ]) |}.



(** An answer of the language model with one candidate. *)
Definition one_candidate : value :=
  VObj [ ("candidates",
          VArr [ VObj [ ("content",
                         VObj [ ("parts",
                                 VArr [ VObj [("text",
                                               VStr "A boy wizard.")] ]) ])
                      ] ]) ].

Definition one_candidate_response : response :=
  {| ok := true; status := 200%Q; body := Some one_candidate |}.

(** The prompt for a question about the sample book. *)
Definition sample_prompt : string :=
  match createPrompt (VObj Inputs.harry_potter_props) "What is it about?" with
  | inr prompt => prompt
  | inl _ => ""
  end.

(** A book whose description is still the object the work endpoint sends. *)
Definition nested_description_props : list (string * value) :=
  [ ("title", VStr "T");
    ("description", VObj [("value", VStr "D")]) ].


Definition loading_more_grid : Grid.state :=
  {| Grid.booksContainer := [Grid.Card "<div>first</div>"];
     Grid.loadMoreShown := true;
     Grid.loadMoreDisabled := true;
     Grid.booksLoading := true;
     Grid.notifications := [] |}.

(** A record whose authors are a string, as [searchBooks] makes it from a
    document whose [author_name] is a string. *)
Definition string_author_record : value :=
  match search_record 0
          (VObj [ ("key", VStr "/works/OL1W");
                  ("author_name", VStr "J.K. Rowling") ]) with
  | inr rec => rec
  | inl _ => VUndefined
  end.

End MoreInputs.

(** * Properties *)

(** ** Reading results *)

Lemma bind_inr {A B} (m : result A) (f : A -> result B) (y : B) :
  (x <- m ;; f x) = inr y -> exists x, m = inr x /\ f x = inr y.
Proof.
  destruct m as [e | x]; cbn; intros H.
  - discriminate.
  - exists x. split; [reflexivity | exact H].
Qed.

Lemma bind_of_inr {A B} (m : result A) (f : A -> result B) (x : A) :
  m = inr x -> (y <- m ;; f y) = f x.
Proof. intros ->. reflexivity. Qed.

Lemma bind_ret {A B} (x : A) (f : A -> result B) :
  (y <- ret x ;; f y) = f x.
Proof. reflexivity. Qed.

Lemma bind_inr_red {A B} (x : A) (f : A -> result B) :
  (y <- inr x ;; f y) = f x.
Proof. reflexivity. Qed.

Lemma bind_inl_red {A B} (e : exn) (f : A -> result B) :
  (y <- inl e ;; f y) = inl e.
Proof. reflexivity. Qed.

(** Run the binds whose first computation has already completed. *)
Ltac mred :=
  repeat (rewrite bind_ret || rewrite bind_inr_red || rewrite bind_inl_red).

(** Split a successful [x <- m ;; k] into its two successful halves. *)
Ltac bind_inv H :=
  let x := fresh "v" in
  let Hx := fresh "E" in
  apply bind_inr in H; destruct H as (x & Hx & H).

Lemma map_result_Forall {A B} (P : B -> Prop) (f : nat -> A -> result B) :
  (forall i x y, f i x = inr y -> P y) ->
  forall l i l', map_result f i l = inr l' -> Forall P l'.
Proof.
  intros Hf l. induction l as [| x rest IH]; intros i l' H; cbn in H.
  - injection H as <-. constructor.
  - bind_inv H. bind_inv H. injection H as <-.
    constructor; [eapply Hf; eassumption | eapply IH; eassumption].
Qed.

Lemma includes_empty (s : string) : includes s "" = true.
Proof. destruct s; reflexivity. Qed.

(** ** Strings inside strings *)

Lemma prefix_app (x rest : string) : prefix x (x ++ rest) = true.
Proof.
  induction x as [| c x IH]; cbn; [reflexivity |].
  now rewrite Ascii.eqb_refl, IH.
Qed.







(** ** Search *)

Module SearchProperties.
Import BooksAPI Vocabulary.

Section WithRuntime.
Context {RT : Runtime}.


Lemma getSampleBooks_filter (query : string) :
  getSampleBooks query = filter (sample_matches (toLowerCase query)) allBooks.
Proof.
  unfold getSampleBooks.
  destruct (String.eqb_spec query "") as [-> | Hne]; cbn [negb].
  - rewrite toLowerCase_empty.
    symmetry. apply forallb_filter_id.
    apply forallb_forall. intros book _.
    unfold sample_matches. now rewrite includes_empty.
  - reflexivity.
Qed.

Lemma searchBooks_try_no_results fetch query startIndex maxResults v :
  (forall url, search_url query startIndex maxResults = inr url ->
               fetch_failed (fetch url) || zero_results (fetch url) = true) ->
  searchBooks_try fetch query startIndex maxResults = inr v ->
  v = books_value (getSampleBooks query).
Proof.
  intros Hnone H. unfold searchBooks_try in H.
  bind_inv H. specialize (Hnone _ E).
  bind_inv H.
  destruct (fetch v0) as [| r]; [discriminate |].
  cbn in E0. injection E0 as <-. cbn in Hnone.
  destruct (ok r); cbn in H, Hnone; [| discriminate].
  bind_inv H. unfold json in E0.
  destruct (body r) as [data |]; [| discriminate].
  injection E0 as <-.
  destruct data; try discriminate.
  cbn in H.
  destruct (assoc "docs" props) as [| | | | | docs |]; try discriminate;
    cbn in H; try (injection H as <-; reflexivity).
  destruct docs; [| discriminate].
  cbn in H.
  destruct (gt0 (VNum (of_nat 0))) eqn:Hgt.
  - cbn in H. injection H as <-.
    unfold gt0 in Hgt. cbn in Hgt. discriminate.
  - cbn in H. injection H as <-. reflexivity.
Qed.


Lemma book_value_is_record (b : SampleBook) :
  is_book_record (book_value b) = true.
Proof. reflexivity. Qed.

Lemma search_record_is_record (index : nat) (book rec : value) :
  search_record index book = inr rec -> is_book_record rec = true.
Proof.
  intros H. unfold search_record in H.
  repeat bind_inv H. injection H as <-. reflexivity.
Qed.

Lemma samples_are_records (l : list SampleBook) :
  Forall (fun v => is_book_record v = true) (map book_value l).
Proof.
  apply Forall_forall. intros v Hin. apply in_map_iff in Hin.
  destruct Hin as (b & <- & _). apply book_value_is_record.
Qed.

(** C2.  Whatever the query, the offset, the limit and the outcome of the
    request, [searchBooks] completes normally with an array of book
    records. *)
Theorem search_always_returns_records
    (fetch : string -> fetch_outcome) (query : string)
    (startIndex maxResults : Q) :
  exists l,
    searchBooks fetch query startIndex maxResults = inr (VArr l)
    /\ Forall (fun v => is_book_record v = true) l.
Proof.
  unfold searchBooks.
  destruct (searchBooks_try fetch query startIndex maxResults)
    as [e | v] eqn:Htry.
  - exists (map book_value (getSampleBooks query)).
    split; [reflexivity | apply samples_are_records].
  - unfold searchBooks_try in Htry.
    bind_inv Htry. bind_inv Htry.
    destruct (negb (ok v1)); [discriminate |].
    bind_inv Htry. bind_inv Htry. bind_inv Htry.
    destruct v4.
    + unfold call_map in Htry.
      destruct v3 as [| | | | | docs |]; try discriminate.
      bind_inv Htry. injection Htry as <-.
      exists v3. split; [reflexivity |].
      eapply map_result_Forall; [| exact E4].
      intros i x y. apply search_record_is_record.
    + injection Htry as <-.
      exists (map book_value (getSampleBooks query)).
      split; [reflexivity | apply samples_are_records].
Qed.

(** At most three categories out of a subject list, and ['General'] when
    the document has no subject field. *)
Lemma search_categories (index : nat) (book rec subject : value) :
  search_record index book = inr rec ->
  get book "subject" = inr subject ->
  (forall l, subject = VArr l ->
     get rec "categories" = inr (VArr (firstn 3 l))
     /\ List.length (firstn 3 l) <= 3)
  /\ (truthy subject = false ->
      get rec "categories" = inr (VArr [VStr "General"])).
Proof.
  intros H Hsubject. unfold search_record in H.
  do 5 bind_inv H. rewrite (bind_of_inr _ _ _ Hsubject) in H.
  repeat bind_inv H. injection H as <-.
  split.
  - intros l ->. cbn in E4. injection E4 as <-.
    split; [reflexivity | apply firstn_le_length].
  - intros Hfalsy. rewrite Hfalsy in E4. injection E4 as <-. reflexivity.
Qed.

(** C3.  The address [searchBooks] requests does not depend on the
    offset: every offset asks for [page=1], so the search that "load more"
    triggers with a larger offset requests what the first search
    requested and returns what it returned. *)
Theorem search_request_ignores_offset
    (fetch : string -> fetch_outcome) (query : string)
    (offset limit : Q) :
  search_url query offset limit = search_url query 0%Q limit
  /\ searchBooks fetch query offset limit
     = searchBooks fetch query 0%Q limit.
Proof. split; reflexivity. Qed.

End WithRuntime.

End SearchProperties.

(** ** Details *)

Module DetailsProperties.
Import BooksAPI Vocabulary.

Section WithRuntime.
Context {RT : Runtime}.

Lemma getBookDetails_try_is_record work_fetch author_fetch bookId rec :
  getBookDetails_try work_fetch author_fetch bookId = inr rec ->
  is_book_record rec = true.
Proof.
  intros H. unfold getBookDetails_try in H.
  bind_inv H. destruct (negb (ok v)); [discriminate |].
  repeat bind_inv H. unfold details_record in H.
  repeat bind_inv H. injection H as <-. reflexivity.
Qed.












Lemma gt0_length_succ (n : nat) : gt0 (VNum (of_nat (S n))) = true.
Proof.
  unfold gt0, to_number, of_nat, Qle_bool. cbn [Qnum Qden inject_Z].
  apply negb_true_iff, Z.leb_gt. lia.
Qed.



(** At most five categories out of a subject list, and ['General'] when
    the work has no subjects field. *)
Lemma details_categories cleanId bookData full a d rec subjects :
  details_record cleanId bookData full a d = inr rec ->
  get bookData "subjects" = inr subjects ->
  (forall l, subjects = VArr l ->
     get rec "categories" = inr (VArr (firstn 5 l))
     /\ List.length (firstn 5 l) <= 5)
  /\ (truthy subjects = false ->
      get rec "categories" = inr (VArr [VStr "General"])).
Proof.
  intros H Hsubjects. unfold details_record in H.
  do 2 bind_inv H. rewrite (bind_of_inr _ _ _ Hsubjects) in H.
  repeat bind_inv H. injection H as <-.
  split.
  - intros l ->. cbn in E1. injection E1 as <-.
    split; [reflexivity | apply firstn_le_length].
  - intros Hfalsy. rewrite Hfalsy in E1. injection E1 as <-. reflexivity.
Qed.

End WithRuntime.

End DetailsProperties.

(** ** Questions *)

Module QuestionProperties.
Import GeminiAPI Vocabulary.

Section WithRuntime.
Context {RT : Runtime}.

Lemma list_or_absent_truthy (v : value) :
  list_or_absent v = true -> truthy v = true -> exists l, v = VArr l.
Proof.
  unfold list_or_absent. intros H Ht.
  destruct v; rewrite ?Ht in H; try discriminate. eauto.
Qed.

Lemma joined_or_list (v : value) (dflt : string) :
  list_or_absent v = true -> exists text, joined_or v dflt = inr text.
Proof.
  intros H. unfold joined_or.
  destruct (truthy v) eqn:Ht; [| eexists; reflexivity].
  destruct (list_or_absent_truthy v H Ht) as (l & ->).
  eexists. reflexivity.
Qed.








(** A field that is neither absent nor a list makes the fallback throw. *)
Lemma joined_or_throws (v : value) (dflt : string) :
  list_or_absent v = false -> joined_or v dflt = inl TypeError.
Proof.
  unfold list_or_absent, joined_or. intros H.
  destruct v; try discriminate;
    apply negb_false_iff in H; rewrite H; reflexivity.
Qed.

Lemma fallback_needs_lists (props : list (string * value))
    (question : string) :
  well_formed_book (VObj props) = false ->
  generateFallbackResponse (VObj props) question = inl TypeError.
Proof.
  cbn [well_formed_book]. intros H.
  unfold generateFallbackResponse. cbn [get]. mred.
  destruct (list_or_absent (assoc "authors" props)) eqn:Hauthors.
  - destruct (joined_or_list _ "Unknown Author" Hauthors) as (t1 & ->).
    destruct (joined_or_list _ "Unknown" Hauthors) as (t2 & ->).
    mred.
    destruct (list_or_absent (assoc "categories" props)) eqn:Hcategories.
    + destruct (joined_or_list _ "General" Hcategories) as (t3 & ->).
      mred. cbn [andb] in H.
      unfold list_or_absent in H.
      destruct (assoc "subjects" props) as [| | b | n | s | l | o];
        try discriminate; apply negb_false_iff in H; rewrite H;
        reflexivity.
    + rewrite (joined_or_throws _ "General" Hcategories). reflexivity.
  - rewrite (joined_or_throws _ "Unknown Author" Hauthors). reflexivity.
Qed.


Lemma subjects_text_list (v : value) (n : nat) (dflt : string) :
  list_or_absent v = true ->
  exists text,
    subjects_text v n dflt = inr text
    /\ (truthy v = false -> text = dflt).
Proof.
  intros H. unfold subjects_text.
  destruct (truthy v) eqn:Ht.
  - destruct (list_or_absent_truthy v H Ht) as (l & ->).
    eexists. split; [reflexivity | discriminate].
  - eexists. split; [reflexivity | reflexivity].
Qed.

Lemma author_bio_line_total (v : value) :
  exists line,
    author_bio_line v = inr line
    /\ (line = "" \/ exists rest, line = "AUTHOR BIO: " ++ rest).
Proof.
  unfold author_bio_line. destruct (truthy v) eqn:Ht.
  - assert (Hfirst : exists first, get_index0 v = inr first).
    { destruct v; try discriminate; eexists; reflexivity. }
    destruct Hfirst as (first & ->). mred.
    assert (Hbio : exists bio, get_opt first "bio" = inr bio).
    { destruct first; eexists; reflexivity. }
    destruct Hbio as (bio & ->). mred.
    eexists. split; [reflexivity |]. right. eexists. reflexivity.
  - eexists. split; [reflexivity |]. now left.
Qed.

Lemma excerpts_line_none (v : value) :
  no_excerpts v = true -> excerpts_line v = inr "".
Proof.
  intros H. unfold excerpts_line, non_empty.
  destruct (truthy v) eqn:Ht.
  - destruct v as [| | | | | [| x l] |]; cbn in H, Ht; rewrite ?Ht in H;
      try discriminate.
    reflexivity.
  - reflexivity.
Qed.

(** C7, as the code has it.  For a well-formed book record with no first
    sentence and no excerpts, [createPrompt] completes; no line of the book
    information is a first-sentence or an excerpts section; the subjects
    section is there all the same, and reads 'No subjects available' when
    the record has no subjects field. *)
Theorem prompt_sections_for_empty_fields
    (props : list (string * value)) (question : string) :
  well_formed_book (VObj props) = true ->
  truthy (assoc "firstSentence" props) = false ->
  no_excerpts (assoc "excerpts" props) = true ->
  exists infoLines,
    bookInfo_lines (VObj props) = inr infoLines
    /\ createPrompt (VObj props) question
       = inr (prompt_text (trim (lines infoLines)) question)
    /\ (forall line, In line infoLines ->
          prefix "FIRST SENTENCE:" line = false
          /\ prefix "BOOK EXCERPTS:" line = false)
    /\ (exists line, In line infoLines /\ prefix "SUBJECTS: " line = true)
    /\ (truthy (assoc "subjects" props) = false ->
        In "SUBJECTS: No subjects available" infoLines).
Proof.
  cbn [well_formed_book]. intros H Hfirst Hexcerpts.
  apply andb_true_iff in H. destruct H as [H Hsubjects].
  apply andb_true_iff in H. destruct H as [Hauthors Hcategories].
  destruct (joined_or_list _ "Unknown Author" Hauthors) as (t1 & Ht1).
  destruct (joined_or_list _ "General" Hcategories) as (t2 & Ht2).
  destruct (subjects_text_list _ 10 "No subjects available" Hsubjects)
    as (t3 & Ht3 & Hdflt).
  destruct (author_bio_line_total (assoc "authorDetails" props))
    as (bio & Hbio & Hshape).
  assert (Hlines : exists infoLines,
    bookInfo_lines (VObj props) = inr infoLines
    /\ infoLines =
       [ ""; "EXACT BOOK DATA FROM OPENLIBRARY API:"; "";
         "BOOK ID: " ++ to_string (assoc "id" props);
         "TITLE: " ++ dq ++ to_string (assoc "title" props) ++ dq;
         "AUTHOR(S): " ++ t1;
         "PUBLICATION YEAR: " ++ text_or (assoc "publishedDate" props) "Unknown";
         "DESCRIPTION: "
           ++ text_or (assoc "description" props) "No description available";
         "CATEGORIES: " ++ t2;
         "SUBJECTS: " ++ t3;
         "PAGE COUNT: " ++ text_or (assoc "pageCount" props) "Unknown";
         ""; bio; ""; "" ]).
  { eexists. split; [| reflexivity].
    unfold bookInfo_lines. cbn [get]. mred.
    rewrite Ht1. mred. rewrite Ht2. mred. rewrite Ht3. mred.
    rewrite Hbio. mred. rewrite (excerpts_line_none _ Hexcerpts). mred.
    unfold first_sentence_line. rewrite Hfirst. reflexivity. }
  destruct Hlines as (infoLines & Hlines & Hshape').
  exists infoLines. split; [exact Hlines |].
  split; [unfold createPrompt; rewrite Hlines; reflexivity |].
  subst infoLines. split; [| split].
  - intros line Hin.
    repeat (destruct Hin as [<- | Hin]; [try (split; reflexivity) |]).
    + destruct Hshape as [-> | (rest & ->)]; split; reflexivity.
    + destruct Hin.
  - exists ("SUBJECTS: " ++ t3). split; [| reflexivity].
    do 9 right. now left.
  - intros Hnone. rewrite (Hdflt Hnone). do 9 right. now left.
Qed.

End WithRuntime.

End QuestionProperties.

(** ** Favourites *)

Module FavoriteProperties.
Import FavoriteStore.

Lemma includes_id_In (bookId : string) (l : list string) :
  includes_id bookId l = true <-> In bookId l.
Proof.
  unfold includes_id. rewrite existsb_exists. split.
  - intros (x & Hin & Heq). apply String.eqb_eq in Heq. now subst.
  - intros Hin. exists bookId. split; [exact Hin | apply String.eqb_refl].
Qed.

Lemma indexOf_push (bookId : string) (l : list string) :
  includes_id bookId l = false ->
  indexOf bookId (l ++ [bookId]) = Some (List.length l).
Proof.
  induction l as [| x rest IH]; cbn [includes_id existsb app indexOf].
  - intros _. now rewrite String.eqb_refl.
  - intros H. apply orb_false_iff in H. destruct H as [Hx Hrest].
    rewrite String.eqb_sym, Hx. fold (includes_id bookId rest) in Hrest.
    now rewrite (IH Hrest).
Qed.

Lemma splice1_push (x : string) (l : list string) :
  splice1 (List.length l) (l ++ [x]) = l.
Proof.
  induction l as [| y rest IH]; cbn; [reflexivity | now rewrite IH].
Qed.

Lemma indexOf_none (bookId : string) (l : list string) :
  indexOf bookId l = None -> includes_id bookId l = false.
Proof.
  induction l as [| x rest IH]; cbn [indexOf includes_id existsb].
  - reflexivity.
  - rewrite (String.eqb_sym bookId x).
    destruct (String.eqb x bookId); [discriminate |].
    destruct (indexOf bookId rest); [discriminate |].
    intros _. now apply IH.
Qed.

Lemma splice1_members (bookId : string) (l : list string) (index : nat) :
  indexOf bookId l = Some index ->
  forall x, In x l <-> x = bookId \/ In x (splice1 index l).
Proof.
  revert index. induction l as [| y rest IH]; intros index H x.
  - discriminate.
  - cbn [indexOf] in H. destruct (String.eqb_spec y bookId) as [-> | Hne].
    + injection H as <-. cbn. intuition congruence.
    + destruct (indexOf bookId rest) as [i |]; [| discriminate].
      injection H as <-. cbn. rewrite (IH i eq_refl x). intuition.
Qed.

Lemma toggle_from_off (bookId : string) (st : state) :
  icon_fas st = false ->
  toggleFavorite bookId st
  = {| icon_fas := true;
       bookFavorites :=
         if negb (includes_id bookId (favorites st))
         then Some (favorites st ++ [bookId])%list
         else bookFavorites st |}.
Proof. intros H. unfold toggleFavorite. now rewrite H. Qed.

Lemma toggle_from_on (bookId : string) (st : state) :
  icon_fas st = true ->
  toggleFavorite bookId st
  = {| icon_fas := false;
       bookFavorites :=
         match indexOf bookId (favorites st) with
         | Some index => Some (splice1 index (favorites st))
         | None => bookFavorites st
         end |}.
Proof. intros H. unfold toggleFavorite. now rewrite H. Qed.

(** C8, as the code has it.  When the button shows the identifier as a
    favourite exactly when the persisted list holds it, two toggles in a
    row leave the persisted list with the members it had and the button
    as it was; started from the un-favourited state they leave the list
    itself as it was. *)
Theorem double_toggle_restores_consistent (bookId : string) (st : state) :
  icon_fas st = includes_id bookId (favorites st) ->
  (forall x,
     In x (favorites (toggleFavorite bookId (toggleFavorite bookId st)))
     <-> In x (favorites st))
  /\ icon_fas (toggleFavorite bookId (toggleFavorite bookId st)) = icon_fas st
  /\ (icon_fas st = false ->
      favorites (toggleFavorite bookId (toggleFavorite bookId st))
      = favorites st).
Proof.
  intros Hagree.
  destruct (icon_fas st) eqn:Hicon; symmetry in Hagree.
  - (* shown as a favourite, and stored *)
    rewrite (toggle_from_on _ _ Hicon).
    rewrite toggle_from_off by reflexivity.
    destruct (indexOf bookId (favorites st)) as [index |] eqn:Hindex.
    + pose proof (splice1_members _ _ _ Hindex) as Hmem.
      split; [| split; [reflexivity | discriminate]].
      intros x. rewrite (Hmem x). cbn [favorites bookFavorites].
      destruct (includes_id bookId (splice1 index (favorites st)))
        eqn:Hstill; cbn [negb].
      * apply includes_id_In in Hstill. cbn [favorites bookFavorites].
        split; [now right | intros [-> | Hin]; assumption].
      * cbn [favorites bookFavorites]. rewrite in_app_iff. cbn. intuition.
    + apply indexOf_none in Hindex. congruence.
  - (* shown as no favourite, and not stored *)
    rewrite (toggle_from_off _ _ Hicon). rewrite Hagree. cbn [negb].
    rewrite toggle_from_on by reflexivity. cbn [favorites bookFavorites].
    rewrite (indexOf_push _ _ Hagree), splice1_push.
    repeat split; tauto.
Qed.

End FavoriteProperties.

(** ** The loading guard *)

Module ControllerProperties.
Import Controller Vocabulary.

Section WithRuntime.
Context {RT : Runtime}.

Lemma loadBooks_guarded (clear : bool) (st : state) :
  guarded st -> guarded (loadBooks clear st).
Proof.
  intros [[Hflag Hone] | [Hflag Hnone]]; unfold loadBooks; rewrite Hflag.
  - left. now split.
  - left. cbn. rewrite Hnone. now split.
Qed.

Lemma step_guarded (st : state) (ev : event) :
  guarded st -> guarded (step st ev).
Proof.
  intros Hst. destruct ev; cbn [step].
  - apply loadBooks_guarded. exact Hst.
  - apply loadBooks_guarded. exact Hst.
  - unfold loadMoreBooks.
    destruct Hst as [[Hflag Hone] | [Hflag Hnone]]; rewrite Hflag.
    + left. now split.
    + apply loadBooks_guarded. right. now split.
  - exact Hst.
  - exact Hst.
  - unfold searchSettled.
    destruct (nth_error (searches st) k) as [req |] eqn:Hreq; [| exact Hst].
    right. cbn. split; [reflexivity |].
    destruct Hst as [[_ Hone] | [_ Hnone]].
    + destruct (searches st) as [| r [| r' rest]]; try discriminate.
      destruct k as [| k]; [reflexivity |].
      destruct k; discriminate.
    + rewrite Hnone in Hreq. destruct k; discriminate.
  - unfold detailsSettled.
    destruct (nth_error (details st) k); exact Hst.
Qed.

Lemma run_guarded (evs : list event) : guarded (run evs).
Proof.
  unfold run.
  assert (Hstart : guarded start) by (left; now split).
  revert Hstart. generalize start.
  induction evs as [| ev rest IH]; intros st Hst; cbn [fold_left].
  - exact Hst.
  - apply IH, step_guarded, Hst.
Qed.

Lemma step_starts_no_search (st : state) (ev : event) :
  isLoading st = true ->
  List.length (searches (step st ev)) <= List.length (searches st).
Proof.
  intros Hflag. destruct ev; cbn [step].
  - unfold handleSearch, loadBooks. cbn. rewrite Hflag. cbn. lia.
  - unfold handleSearch, loadBooks. cbn. rewrite Hflag. cbn. lia.
  - unfold loadMoreBooks. rewrite Hflag. lia.
  - cbn. lia.
  - cbn. lia.
  - unfold searchSettled.
    destruct (nth_error (searches st) k); [| lia].
    cbn [searches]. clear. revert k.
    induction (searches st) as [| r rest IH]; intros [| k]; cbn; try lia.
    specialize (IH k). lia.
  - unfold detailsSettled. destruct (nth_error (details st) k); cbn; lia.
Qed.

(** C9, as the code has it.  After any sequence of events at most one
    catalog search is in flight, the loading flag is set exactly while one
    is, and while it is set no event starts another search.  Detail
    fetches are outside the guard. *)
Theorem at_most_one_search_in_flight (evs : list event) :
  List.length (searches (run evs)) <= 1
  /\ (isLoading (run evs) = true <-> List.length (searches (run evs)) = 1)
  /\ forall ev,
       isLoading (run evs) = true ->
       List.length (searches (step (run evs) ev))
       <= List.length (searches (run evs)).
Proof.
  pose proof (run_guarded evs) as [[Hflag Hone] | [Hflag Hnone]].
  - rewrite Hone. repeat split; auto.
    intros ev _. rewrite <- Hone. now apply step_starts_no_search.
  - rewrite Hnone, Hflag. cbn. repeat split; try lia; try discriminate.
Qed.

End WithRuntime.

End ControllerProperties.

(** * Further properties *)

(** ** Mapping with a callback that may throw *)

Lemma map_result_nth {A B} (f : nat -> A -> result B) :
  forall l i l',
    map_result f i l = inr l' ->
    List.length l' = List.length l
    /\ forall k x, nth_error l k = Some x ->
         exists y, nth_error l' k = Some y /\ f (i + k) x = inr y.
Proof.
  induction l as [| a rest IH]; intros i l' H; cbn [map_result] in H.
  - injection H as <-. split; [reflexivity |].
    intros [| k] x; discriminate.
  - bind_inv H. bind_inv H. injection H as <-.
    destruct (IH _ _ E0) as (Hlen & Hnth).
    split; [cbn; now rewrite Hlen |].
    intros [| k] x Hx; cbn [nth_error] in *.
    + injection Hx as <-. exists v. now rewrite Nat.add_0_r.
    + destruct (Hnth k x Hx) as (y & Hy & Hf).
      exists y. split; [exact Hy |]. now rewrite Nat.add_succ_r.
Qed.



Lemma or_else_truthy (a b : value) :
  truthy b = true -> truthy (or_else a b) = true.
Proof. intros Hb. unfold or_else. now destruct (truthy a) eqn:Ha. Qed.

(** ** More on search *)

Module SearchRecords.
Import BooksAPI Vocabulary Shapes.

Section WithRuntime.
Context {RT : Runtime}.

(** The record [searchBooks] builds for a document, field by field. *)
Lemma search_record_fields (index : nat) (doc rec : value) :
  search_record index doc = inr rec ->
  exists key btitle author_name year bdescription bcategories cover pages
         isbn0,
    get doc "key" = inr key
    /\ get doc "title" = inr btitle
    /\ get doc "author_name" = inr author_name
    /\ get doc "first_publish_year" = inr year
    /\ get doc "description" = inr bdescription
    /\ get doc "cover_i" = inr cover
    /\ rec = VObj
        [ ("id", or_else key
                   (VStr ("book-" ++ number_to_string (of_nat index))));
          ("title", or_else btitle (VStr "Unknown Title"));
          ("authors", or_else author_name (VArr [VStr "Unknown Author"]));
          ("publishedDate", or_else year (VStr "Unknown"));
          ("description",
             or_else bdescription
               (VStr "Description available in detailed view"));
          ("categories", bcategories);
          ("thumbnail",
             if truthy cover
             then VStr ("https://covers.openlibrary.org/b/id/"
                        ++ to_string cover ++ "-M.jpg")
             else VNull);
          ("previewLink", VStr ("https://openlibrary.org" ++ to_string key));
          ("pageCount", or_else pages VNull);
          ("averageRating", VNum 4%Q);
          ("isbn", isbn0) ].
Proof.
  intros H. unfold search_record in H. repeat bind_inv H.
  injection H as <-. repeat eexists; eassumption.
Qed.

(** Whatever the document lacks, the record has an identifier, a title,
    authors, a date, a description and a preview link that are neither
    missing nor blank. *)
Theorem search_record_never_blank (index : nat) (doc rec : value) :
  search_record index doc = inr rec ->
  filled rec "id" /\ filled rec "title" /\ filled rec "authors"
  /\ filled rec "publishedDate" /\ filled rec "description"
  /\ filled rec "previewLink".
Proof.
  intros H.
  destruct (search_record_fields _ _ _ H)
    as (key & t & a & y & d & c & cv & p & i0 & _ & _ & _ & _ & _ & _ & ->).
  unfold filled.
  repeat split; eexists; (split; [reflexivity |]);
    try (apply or_else_truthy; reflexivity); reflexivity.
Qed.

(** A document without a key gets its position as identifier, and a
    preview link that ends in the text "undefined". *)
Theorem search_record_without_key (index : nat) (doc rec : value) :
  search_record index doc = inr rec ->
  get doc "key" = inr VUndefined ->
  get rec "id" = inr (VStr ("book-" ++ number_to_string (of_nat index)))
  /\ get rec "previewLink" = inr (VStr "https://openlibrary.orgundefined").
Proof.
  intros H Hkey.
  destruct (search_record_fields _ _ _ H)
    as (key & t & a & y & d & c & cv & p & i0 & Hk & _ & _ & _ & _ & _ & ->).
  rewrite Hkey in Hk. injection Hk as <-. split; reflexivity.
Qed.

(** For a document whose key is a work path, the record keeps the path as
    its identifier, its preview link is the page of the work, and the
    detail request for that identifier asks for the same page as JSON. *)
Theorem search_record_links_to_details
    (index : nat) (doc rec : value) (work : string) :
  search_record index doc = inr rec ->
  get doc "key" = inr (VStr ("/works/" ++ work)) ->
  get rec "id" = inr (VStr ("/works/" ++ work))
  /\ get rec "previewLink"
     = inr (VStr ("https://openlibrary.org/works/" ++ work))
  /\ clean_id ("/works/" ++ work) = work
  /\ details_url ("/works/" ++ work)
     = "https://openlibrary.org/works/" ++ work ++ ".json".
Proof.
  intros H Hkey.
  destruct (search_record_fields _ _ _ H)
    as (key & t & a & y & d & c & cv & p & i0 & Hk & _ & _ & _ & _ & _ & ->).
  rewrite Hkey in Hk. injection Hk as <-.
  repeat split; reflexivity.
Qed.





End WithRuntime.

End SearchRecords.

(** ** More on details *)

Module DetailRecords.
Import BooksAPI Vocabulary Shapes.

Section WithRuntime.
Context {RT : Runtime}.

(** A lookup always names its author. *)
Lemma author_lookup_named author_fetch i author detail :
  author_lookup author_fetch i author = inr detail ->
  exists props name,
    detail = VObj props /\ get detail "name" = inr name
    /\ truthy name = true.
Proof.
  unfold author_lookup.
  destruct (author_lookup_try author_fetch i author) as [e | v] eqn:Htry.
  - intros H. injection H as <-. do 2 eexists.
    split; [reflexivity |]. split; reflexivity.
  - intros H. injection H as <-.
    unfold author_lookup_try in Htry. repeat bind_inv Htry.
    injection Htry as <-. do 2 eexists.
    split; [reflexivity |]. split; [reflexivity |].
    apply or_else_truthy. reflexivity.
Qed.

Lemma gt0_length_zero : gt0 (VNum (of_nat 0)) = false.
Proof. reflexivity. Qed.

(** The two shapes the block "Get author names" can leave. *)
Lemma author_names_shape
    (author_fetch : nat -> string -> fetch_outcome)
    (bookData bauthors authorDetails : value) :
  author_names author_fetch bookData = inr (bauthors, authorDetails) ->
  (bauthors = VArr [VStr "Unknown Author"] /\ authorDetails = VArr [])
  \/ exists refs names details,
       get bookData "authors" = inr (VArr refs)
       /\ refs <> []
       /\ bauthors = VArr names /\ authorDetails = VArr details
       /\ List.length names = List.length refs
       /\ List.length details = List.length refs
       /\ forall i detail,
            nth_error details i = Some detail ->
            exists name,
              nth_error names i = Some name
              /\ get detail "name" = inr name
              /\ truthy name = true.
Proof.
  intros H. unfold author_names in H.
  bind_inv H. bind_inv H. destruct v0.
  - right. bind_inv H. bind_inv H. injection H as <- <-.
    unfold call_map in E1.
    destruct v as [| | | | | refs |]; try discriminate.
    bind_inv E1. injection E1 as <-.
    unfold call_map in E2. bind_inv E2. injection E2 as <-.
    destruct (map_result_nth _ _ _ _ E3) as (Hlen & Hnth).
    destruct (map_result_nth _ _ _ _ E1) as (Hlen' & Hnth').
    exists refs, v0, v. split; [exact E |].
    split.
    { intros ->. unfold non_empty in E0. cbn in E0. discriminate. }
    repeat split; try congruence.
    intros i detail Hdetail.
    destruct (Hnth' i detail Hdetail) as (name & Hname & Hget).
    exists name. split; [exact Hname |]. split; [exact Hget |].
    assert (Href : exists ref, nth_error refs i = Some ref).
    { destruct (nth_error refs i) as [ref |] eqn:Href; [eauto |].
      apply nth_error_None in Href.
      assert (i < List.length v) by (apply nth_error_Some; congruence).
      lia. }
    destruct Href as (ref & Href).
    destruct (Hnth i ref Href) as (d & Hd & Hlookup).
    rewrite Hdetail in Hd. injection Hd as <-.
    destruct (author_lookup_named _ _ _ _ Hlookup)
      as (props & n & _ & Hn & Htruthy).
    congruence.
  - left. injection H as <- <-. split; reflexivity.
Qed.

(** The names of a details record line up with its author details: when
    the work lists authors there is one name and one detail per reference,
    each name is the name of the detail at its position, and no name is
    blank; when it lists none the names are ['Unknown Author'] and there
    is no detail. *)
Theorem author_names_line_up
    (author_fetch : nat -> string -> fetch_outcome)
    (bookData bauthors authorDetails : value) :
  author_names author_fetch bookData = inr (bauthors, authorDetails) ->
  (bauthors = VArr [VStr "Unknown Author"] /\ authorDetails = VArr [])
  \/ exists refs names details,
       get bookData "authors" = inr (VArr refs)
       /\ refs <> []
       /\ bauthors = VArr names /\ authorDetails = VArr details
       /\ List.length names = List.length refs
       /\ List.length details = List.length refs
       /\ forall i detail,
            nth_error details i = Some detail ->
            exists name,
              nth_error names i = Some name
              /\ get detail "name" = inr name
              /\ truthy name = true.
Proof. apply author_names_shape. Qed.

(** The lookup of an author does not look at the status of the answer: a
    readable body is used whatever the status says. *)
Theorem author_lookup_ignores_status
    (fetch fetch' : nat -> string -> fetch_outcome) (i : nat)
    (author : value) :
  (forall url,
     match fetch i url, fetch' i url with
     | Responded r, Responded r' => body r = body r'
     | Rejected, Rejected => True
     | _, _ => False
     end) ->
  author_lookup fetch i author = author_lookup fetch' i author.
Proof.
  intros Hsame. unfold author_lookup, author_lookup_try.
  destruct (get author "author") as [e | a]; [reflexivity |]. mred.
  destruct (get a "key") as [e | key]; [reflexivity |]. mred.
  specialize (Hsame ("https://openlibrary.org" ++ to_string key ++ ".json")).
  destruct (fetch i _) as [| r], (fetch' i _) as [| r'];
    try contradiction; [reflexivity |].
  cbn [await_fetch]. mred. unfold json. now rewrite Hsame.
Qed.

Lemma full_description_truthy (bdescription full : value) :
  full_description bdescription = inr full -> truthy full = true.
Proof.
  unfold full_description. destruct (truthy bdescription) eqn:Ht.
  - destruct bdescription; try discriminate;
      try (intros H; bind_inv H; injection H as <-;
           apply or_else_truthy; reflexivity).
    intros H. injection H as <-. exact Ht.
  - intros H. injection H as <-. reflexivity.
Qed.

(** The record the [catch] block of [getBookDetails] returns is one of
    the samples. *)
Lemma details_fallback_sample (bookId : string) :
  exists book, details_fallback bookId = book_value book /\ In book allBooks.
Proof.
  unfold details_fallback. change (getSampleBooks "") with allBooks.
  destruct (find (fun book => String.eqb (id book) bookId) allBooks)
    as [book |] eqn:Hfind.
  - exists book. split; [reflexivity |].
    apply find_some in Hfind. exact (proj1 Hfind).
  - destruct allBooks as [| first rest] eqn:Hall; [discriminate |].
    exists first. split; [reflexivity | now left].
Qed.

Lemma samples_never_blank (book : SampleBook) :
  In book allBooks ->
  filled (book_value book) "title" /\ filled (book_value book) "authors"
  /\ filled (book_value book) "publishedDate"
  /\ filled (book_value book) "description"
  /\ filled (book_value book) "previewLink".
Proof.
  intros [<- | []]. unfold filled.
  repeat split; eexists; split; reflexivity.
Qed.

Lemma author_names_filled author_fetch bookData bauthors authorDetails :
  author_names author_fetch bookData = inr (bauthors, authorDetails) ->
  truthy bauthors = true /\ list_or_absent bauthors = true.
Proof.
  intros H. destruct (author_names_shape _ _ _ _ H)
    as [[-> _] | (refs & names & details & _ & _ & -> & _)];
    split; reflexivity.
Qed.

(** What a successful [try] block of [getBookDetails] went through. *)
Lemma details_try_inv work_fetch author_fetch bookId rec :
  getBookDetails_try work_fetch author_fetch bookId = inr rec ->
  exists r bookData bdescription full named,
    work_fetch (details_url bookId) = Responded r
    /\ ok r = true
    /\ body r = Some bookData
    /\ get bookData "description" = inr bdescription
    /\ full_description bdescription = inr full
    /\ author_names author_fetch bookData = inr named
    /\ details_record (clean_id bookId) bookData full (fst named)
         (snd named) = inr rec.
Proof.
  intros H. unfold getBookDetails_try in H.
  bind_inv H.
  destruct (work_fetch (details_url bookId)) as [| r] eqn:Hfetch;
    [discriminate |].
  injection E as <-.
  destruct (ok r) eqn:Hok; [| discriminate]. cbn [negb] in H.
  bind_inv H. unfold json in E.
  destruct (body r) as [bookData |] eqn:Hbody; [| discriminate].
  injection E as <-.
  bind_inv H. bind_inv H. bind_inv H.
  exists r, bookData, v, v0, v1. repeat split; assumption.
Qed.

(** The object literal of [getBookDetails], field by field. *)
Lemma details_record_fields cleanId bookData full bauthors authorDetails rec :
  details_record cleanId bookData full bauthors authorDetails = inr rec ->
  exists btitle date subjects bcategories cover0 pages first links excerpts,
    get bookData "subjects" = inr subjects
    /\ (if truthy subjects then call_slice subjects 5
        else ret (VArr [VStr "General"])) = inr bcategories
    /\ rec = VObj
        [ ("id", VStr cleanId);
          ("title", or_else btitle (VStr "Unknown Title"));
          ("authors", bauthors);
          ("authorDetails", authorDetails);
          ("publishedDate", or_else date (VStr "Unknown"));
          ("description", full);
          ("categories", bcategories);
          ("subjects", or_else subjects (VArr []));
          ("thumbnail",
             if truthy cover0
             then VStr ("https://covers.openlibrary.org/b/id/"
                        ++ to_string cover0 ++ "-L.jpg")
             else VNull);
          ("previewLink", VStr ("https://openlibrary.org/works/" ++ cleanId));
          ("pageCount", or_else pages VNull);
          ("averageRating", VNum 4%Q);
          ("firstSentence", or_else first VNull);
          ("links", or_else links (VArr []));
          ("excerpts", or_else excerpts (VArr [])) ].
Proof.
  intros H. unfold details_record in H. repeat bind_inv H.
  injection H as <-. repeat eexists; eassumption.
Qed.

(** The fields [getBookDetails] always fills. *)
Lemma getBookDetails_filled
    (work_fetch : string -> fetch_outcome)
    (author_fetch : nat -> string -> fetch_outcome) (bookId : string) :
  exists rec,
    getBookDetails work_fetch author_fetch bookId = inr rec
    /\ filled rec "title" /\ filled rec "authors"
    /\ filled rec "publishedDate" /\ filled rec "description"
    /\ filled rec "previewLink".
Proof.
  unfold getBookDetails.
  destruct (getBookDetails_try work_fetch author_fetch bookId)
    as [e | rec] eqn:Htry.
  - destruct (details_fallback_sample bookId) as (book & Hbook & Hin).
    exists (book_value book). split.
    + rewrite <- Hbook. reflexivity.
    + apply samples_never_blank, Hin.
  - exists rec. split; [reflexivity |].
    destruct (details_try_inv _ _ _ _ Htry)
      as (r & bookData & dsc & full & [names details]
          & _ & _ & _ & _ & Hfull & Hnames & Hrec).
    destruct (details_record_fields _ _ _ _ _ _ Hrec)
      as (t & d & s & c & c0 & p & f & l & x & _ & _ & ->).
    apply full_description_truthy in Hfull.
    apply author_names_filled in Hnames. destruct Hnames as [Hnames _].
    unfold filled. cbn [fst snd].
    repeat split; eexists; (split; [reflexivity |]);
      try (apply or_else_truthy; reflexivity); try assumption; reflexivity.
Qed.


(** Whatever the identifier and whatever the network answers, the record
    [getBookDetails] returns has a title, authors, a date, a description
    and a preview link that are neither missing nor blank. *)
Theorem details_never_blank
    (work_fetch : string -> fetch_outcome)
    (author_fetch : nat -> string -> fetch_outcome) (bookId : string) :
  exists rec,
    getBookDetails work_fetch author_fetch bookId = inr rec
    /\ filled rec "title" /\ filled rec "authors"
    /\ filled rec "publishedDate" /\ filled rec "description"
    /\ filled rec "previewLink".
Proof. apply getBookDetails_filled. Qed.


End WithRuntime.

End DetailRecords.

(** ** More on questions *)

Module Answers.
Import GeminiAPI Vocabulary Shapes.

Section WithRuntime.
Context {RT : Runtime}.

(** Reading a property or the first element of a falsy value that is
    not [null] gives [undefined]. *)
Lemma get_falsy (v x : value) (key : string) :
  truthy v = false -> String.eqb key "length" = false ->
  get v key = inr x -> x = VUndefined.
Proof.
  intros Hv Hkey H.
  destruct v; try discriminate; cbn in H; rewrite ?Hkey in H;
    now injection H as <-.
Qed.

Lemma get_index0_falsy (v x : value) :
  truthy v = false -> get_index0 v = inr x -> x = VUndefined.
Proof.
  intros Hv H. destruct v; try discriminate; cbn in H;
    try (now injection H as <-).
  destruct s; [now injection H as <- | discriminate].
Qed.

(** A body that carries an answer passes the test of
    [askQuestionAboutBook] on its shape. *)
Lemma first_answer_has_content (data : value) (text : string) :
  first_answer data = inr text -> has_content data = inr true.
Proof.
  intros H. unfold first_answer in H. unfold has_content.
  bind_inv H. rewrite E. mred.
  bind_inv H. bind_inv H. bind_inv H. bind_inv H. bind_inv H.
  destruct (truthy v) eqn:Hc.
  2:{ rewrite (get_index0_falsy _ _ Hc E0) in E1. discriminate. }
  rewrite E0. mred.
  destruct (truthy v0) eqn:Hf.
  2:{ rewrite (get_falsy v0 v1 "content" Hf eq_refl E1) in E2. discriminate. }
  rewrite E1. mred.
  destruct (truthy v1) eqn:Hct; [reflexivity |].
  rewrite (get_falsy v1 v2 "parts" Hct eq_refl E2) in E3. discriminate.
Qed.

Lemma log_book_plain (props : list (string * value)) :
  plain_description (assoc "description" props) = true ->
  log_book (VObj props) = inr tt.
Proof.
  intros H. unfold log_book. cbn [get]. mred.
  destruct (assoc "description" props); try discriminate; reflexivity.
Qed.

Lemma log_book_not_plain (props : list (string * value)) :
  plain_description (assoc "description" props) = false ->
  exists e, log_book (VObj props) = inl e.
Proof.
  intros H. unfold log_book. cbn [get]. mred.
  destruct (assoc "description" props); try discriminate;
    eexists; reflexivity.
Qed.

(** When the call succeeds and its body carries a text where the code
    looks for it, [askQuestionAboutBook] returns that text, unchanged, for
    every book whose description is a string or absent and for which the
    prompt can be built. *)
Theorem answer_on_success
    (post : string -> fetch_outcome) (props : list (string * value))
    (question prompt : string) (r : response) (data : value)
    (text : string) :
  plain_description (assoc "description" props) = true ->
  createPrompt (VObj props) question = inr prompt ->
  post prompt = Responded r ->
  ok r = true ->
  body r = Some data ->
  first_answer data = inr text ->
  askQuestionAboutBook post (VObj props) question = inr text.
Proof.
  intros Hplain Hprompt Hpost Hok Hbody Hanswer.
  unfold askQuestionAboutBook, askQuestionAboutBook_try.
  rewrite (log_book_plain _ Hplain). mred. rewrite Hprompt. mred.
  rewrite Hpost. cbn [await_fetch]. mred. rewrite Hok. cbn [negb].
  unfold json. rewrite Hbody. mred.
  rewrite (first_answer_has_content _ _ Hanswer). mred.
  rewrite Hanswer. reflexivity.
Qed.

(** A book whose description is neither a string nor absent never
    reaches the network: the logging that opens [askQuestionAboutBook]
    throws, and the answer is the fallback whatever the call would have
    returned. *)
Theorem odd_description_forces_fallback
    (post : string -> fetch_outcome) (props : list (string * value))
    (question : string) :
  plain_description (assoc "description" props) = false ->
  askQuestionAboutBook post (VObj props) question
  = generateFallbackResponse (VObj props) question.
Proof.
  intros Hodd. unfold askQuestionAboutBook, askQuestionAboutBook_try.
  destruct (log_book_not_plain _ Hodd) as (e & ->). reflexivity.
Qed.



End WithRuntime.

End Answers.

(** ** The modal *)

Module ModalProperties.
Import GeminiAPI Vocabulary Shapes Modal.

Section WithRuntime.
Context {RT : Runtime}.
Variable error_message : exn -> string.


(** The "read" button opens the preview link of every book
    [getBookDetails] returns, the value of the [previewLink] of that
    book, which is not blank: the alert for a missing link is never
    reached from there. *)
Theorem read_button_opens_preview
    (work_fetch : string -> fetch_outcome)
    (author_fetch : nat -> string -> fetch_outcome) (bookId : string) :
  exists rec link,
    BooksAPI.getBookDetails work_fetch author_fetch bookId = inr rec
    /\ get rec "previewLink" = inr link
    /\ readBook rec = inr (OpenWindow link)
    /\ truthy link = true.
Proof.
  destruct (DetailRecords.getBookDetails_filled work_fetch author_fetch bookId)
    as (rec & Hrec & (t & Ht & Htt) & _ & _ & _ & (link & Hlink & Htruthy)).
  exists rec, link. split; [exact Hrec |]. split; [exact Hlink |].
  split; [| exact Htruthy].
  unfold readBook.
  assert (Hobj : truthy rec = true).
  { destruct rec; try discriminate; try reflexivity.
    - cbn in Ht. injection Ht as <-. discriminate.
    - cbn in Ht. injection Ht as <-. discriminate.
    - cbn in Ht. injection Ht as <-. discriminate. }
  rewrite Hobj, Hlink. mred. now rewrite Htruthy.
Qed.

End WithRuntime.

End ModalProperties.

(** ** The cards of the grid *)

Module GridProperties.
Import BooksAPI GeminiAPI Vocabulary Shapes Grid.

Section WithRuntime.
Context {RT : Runtime}.

Lemma createBookCard_renders (book : value) :
  renders book = true -> exists html, createBookCard book = inr html.
Proof.
  intros H. unfold createBookCard.
  assert (Hget : forall k, exists v, get book k = inr v).
  { intros k. destruct book; try discriminate; eexists; reflexivity. }
  destruct (Hget "title") as (v1 & ->). mred.
  destruct (Hget "authors") as (v2 & Hv2).
  assert (Hlist : list_or_absent v2 = true).
  { unfold renders in H. rewrite Hv2 in H.
    destruct book; try discriminate; exact H. }
  rewrite Hv2. mred.
  destruct (QuestionProperties.joined_or_list v2 "Unknown Author" Hlist)
    as (author & Hauthor).
  unfold joined_or in Hauthor. rewrite Hauthor. mred.
  destruct (Hget "publishedDate") as (v3 & ->),
    (Hget "thumbnail") as (v4 & ->), (Hget "id") as (v5 & ->).
  mred. eexists. reflexivity.
Qed.

Lemma createBookCard_not_renders (book : value) :
  renders book = false -> exists e, createBookCard book = inl e.
Proof.
  intros H. unfold createBookCard.
  destruct (get book "title") as [e | v1] eqn:H1; [eexists; reflexivity |].
  mred.
  assert (Hget : exists v, get book "authors" = inr v).
  { destruct book; try discriminate; eexists; reflexivity. }
  destruct Hget as (v2 & Hv2). rewrite Hv2. mred.
  assert (Hlist : list_or_absent v2 = false).
  { unfold renders in H. rewrite Hv2 in H.
    destruct book; try discriminate; exact H. }
  unfold list_or_absent in Hlist.
  destruct v2; try discriminate; apply negb_false_iff in Hlist;
    rewrite Hlist; eexists; reflexivity.
Qed.


Lemma append_cards_all (books : list value) :
  forallb renders books = true ->
  forall grid, exists htmls,
    append_cards books grid = ((grid ++ map Card htmls)%list, None)
    /\ List.length htmls = List.length books
    /\ map createBookCard books = map inr htmls
    /\ forall i book, nth_error books i = Some book ->
         exists html, nth_error htmls i = Some html
                      /\ createBookCard book = inr html.
Proof.
  induction books as [| book rest IH]; intros Hall grid.
  - exists []. cbn. rewrite app_nil_r. repeat split.
    intros [| i] b; discriminate.
  - cbn [forallb] in Hall. apply andb_true_iff in Hall.
    destruct Hall as [Hbook Hrest].
    destruct (createBookCard_renders book Hbook) as (html & Hhtml).
    destruct (IH Hrest (grid ++ [Card html])%list)
      as (htmls & Hcards & Hlen & Hmap & Hnth).
    exists (html :: htmls). cbn [append_cards]. rewrite Hhtml, Hcards.
    cbn [map]. rewrite <- app_assoc. cbn [app List.length].
    split; [reflexivity |]. split; [now rewrite Hlen |].
    split; [now rewrite Hhtml, Hmap |].
    intros [| i] b Hb; cbn [nth_error] in *.
    + injection Hb as <-. eauto.
    + now apply Hnth.
Qed.

Lemma append_cards_some_fails (books : list value) :
  forallb renders books = false ->
  forall grid, exists htmls e bad,
    append_cards books grid = ((grid ++ map Card htmls)%list, Some e)
    /\ List.length htmls < List.length books
    /\ map createBookCard (firstn (List.length htmls) books)
       = map inr htmls
    /\ nth_error books (List.length htmls) = Some bad
    /\ createBookCard bad = inl e.
Proof.
  induction books as [| book rest IH]; intros Hall grid;
    [discriminate |].
  cbn [forallb] in Hall. cbn [append_cards].
  destruct (renders book) eqn:Hbook.
  - destruct (createBookCard_renders book Hbook) as (html & Hhtml).
    rewrite Hhtml.
    destruct (IH Hall (grid ++ [Card html])%list)
      as (htmls & e & bad & Hcards & Hlen & Hmap & Hbad & Hthrows).
    exists (html :: htmls), e, bad. rewrite Hcards.
    cbn [map]. rewrite <- app_assoc. cbn [app List.length firstn map].
    split; [reflexivity |]. split; [lia |].
    split; [now rewrite Hhtml, Hmap |].
    split; [exact Hbad | exact Hthrows].
  - destruct (createBookCard_not_renders book Hbook) as (e & He).
    rewrite He.
    exists [], e, book. cbn. rewrite app_nil_r.
    split; [reflexivity |]. split; [lia |].
    split; [reflexivity |]. split; [reflexivity | exact He].
Qed.





Lemma searchBooks_no_results
    (fetch : string -> fetch_outcome) (query : string)
    (startIndex maxResults : Q) :
  (forall url, search_url query startIndex maxResults = inr url ->
               fetch_failed (fetch url) || zero_results (fetch url) = true) ->
  searchBooks fetch query startIndex maxResults
  = inr (books_value (getSampleBooks query)).
Proof.
  intros Hnone. unfold searchBooks.
  destruct (searchBooks_try fetch query startIndex maxResults)
    as [e | v] eqn:Htry; [reflexivity |].
  apply SearchProperties.searchBooks_try_no_results in Htry;
    [| assumption].
  now subst v.
Qed.

(** A search that fails or finds no document, for a query no sample
    matches, shows no card: a fresh search replaces the grid by the
    "no books found" paragraph, "load more" leaves the grid as it is;
    either way the "load more" button is hidden and nothing is
    notified. *)
Theorem nothing_found
    (fetch : string -> fetch_outcome) (query : string)
    (startIndex maxResults : Q) (clear : bool) (current : string)
    (st : state) :
  (forall url, search_url query startIndex maxResults = inr url ->
               fetch_failed (fetch url) || zero_results (fetch url) = true) ->
  getSampleBooks query = [] ->
  loadBooks_rest (searchBooks fetch query startIndex maxResults) clear
    current st
  = ({| booksContainer :=
          if clear then [Markup no_results_html] else booksContainer st;
        loadMoreShown := false;
        loadMoreDisabled := false;
        booksLoading := false;
        notifications := notifications st |},
      None).
Proof.
  intros Hnone Hsamples.
  rewrite (searchBooks_no_results _ _ _ _ Hnone), Hsamples.
  unfold loadBooks_rest, loadBooks_try, non_empty, books_value.
  cbn [map truthy get]. change (String.eqb "length" "length") with true.
  cbv iota. mred. cbn [List.length].
  rewrite DetailRecords.gt0_length_zero.
  destruct clear; reflexivity.
Qed.

Lemma samples_render (query : string) :
  forallb renders (map book_value (getSampleBooks query)) = true.
Proof.
  apply forallb_forall. intros v Hin. apply in_map_iff in Hin.
  destruct Hin as (book & <- & Hin).
  rewrite SearchProperties.getSampleBooks_filter in Hin.
  apply filter_In in Hin. destruct Hin as [[<- | []] _]. reflexivity.
Qed.

(** A book that cannot be rendered sends [loadBooks] to its [catch]
    block: the error is notified, no exception escapes, and the cards of
    the samples matching the current query are shown, one per sample and
    in their order, on a fresh search alone (or the error paragraph when
    there is none), on "load more" after the cards already there and the
    cards of the books that come before the first one that cannot be
    rendered. *)
Theorem unrenderable_book_shows_samples
    (books : list value) (clear : bool) (query : string) (st : state) :
  forallb renders books = false ->
  exists rendered sampleCards,
    loadBooks_rest (inr (VArr books)) clear query st
    = ({| booksContainer :=
            if clear then
              match getSampleBooks query with
              | [] => [Markup error_html]
              | _ :: _ => map Card sampleCards
              end
            else
              (booksContainer st ++ map Card rendered
               ++ map Card sampleCards)%list;
          loadMoreShown := loadMoreShown st;
          loadMoreDisabled := false;
          booksLoading := false;
          notifications :=
            (notifications st ++ [(error_notice, "error")])%list |},
        None)
    /\ List.length rendered < List.length books
    /\ List.length sampleCards = List.length (getSampleBooks query)
    /\ map createBookCard (firstn (List.length rendered) books)
       = map inr rendered
    /\ (exists bad e,
          nth_error books (List.length rendered) = Some bad
          /\ createBookCard bad = inl e)
    /\ map createBookCard (map book_value (getSampleBooks query))
       = map inr sampleCards.
Proof.
  intros Hbad.
  destruct (append_cards_some_fails _ Hbad
              (if clear then [] else booksContainer st))
    as (rendered & e & bad & Hcards & Hlen & Hmap & Hnth & Hthrows).
  pose proof (samples_render query) as Hsamples.
  destruct books as [| book rest]; [discriminate |].
  unfold loadBooks_rest, loadBooks_try, non_empty.
  cbn [truthy get]. change (String.eqb "length" "length") with true.
  cbv iota. mred. cbn [List.length].
  rewrite DetailsProperties.gt0_length_succ. mred.
  unfold displayBooks at 1. cbn [booksContainer]. rewrite Hcards.
  unfold loadBooks_catch.
  destruct (getSampleBooks query) as [| sample samples] eqn:Hq.
  - exists rendered, [].
    split; [destruct clear; cbn; rewrite ?app_nil_r; reflexivity |].
    split; [exact Hlen |]. split; [reflexivity |].
    split; [exact Hmap |]. split; [eauto | reflexivity].
  - unfold books_value, displayBooks.
    destruct clear; cbn -[append_cards map error_notice createBookCard firstn].
    + destruct (append_cards_all _ Hsamples [])
        as (cards & -> & Hsl & Hsm & _).
      exists rendered, cards. rewrite Hsl, length_map.
      split; [reflexivity |]. split; [exact Hlen |].
      split; [reflexivity |]. split; [exact Hmap |].
      split; [eauto | exact Hsm].
    + destruct (append_cards_all _ Hsamples
                  (booksContainer st ++ map Card rendered)%list)
        as (cards & -> & Hsl & Hsm & _).
      exists rendered, cards. rewrite Hsl, length_map, <- app_assoc.
      split; [reflexivity |]. split; [exact Hlen |].
      split; [reflexivity |]. split; [exact Hmap |].
      split; [eauto | exact Hsm].
Qed.

(** The children [loadBooks] leaves depend on the children it found and
    on no other part of the page. *)
Lemma loadBooks_rest_children
    (answer : result value) (clear : bool) (query : string)
    (st st' : state) :
  booksContainer st = booksContainer st' ->
  booksContainer (fst (loadBooks_rest answer clear query st))
  = booksContainer (fst (loadBooks_rest answer clear query st')).
Proof.
  intros Hsame.
  assert (Hcatch : forall g g',
    booksContainer g = booksContainer g' ->
    booksContainer (fst (loadBooks_catch clear query g))
    = booksContainer (fst (loadBooks_catch clear query g'))).
  { intros g g' Hg. unfold loadBooks_catch.
    destruct (getSampleBooks query) as [| sample samples].
    - destruct clear; cbn; [reflexivity | exact Hg].
    - destruct clear; cbn [showNotification with_children booksContainer].
      + destruct (displayBooks _ true [Markup error_html]); reflexivity.
      + rewrite Hg.
        destruct (displayBooks _ false (booksContainer g')); reflexivity. }
  assert (Hrest : forall g g' : state * option exn,
    booksContainer (fst g) = booksContainer (fst g') -> snd g = snd g' ->
    booksContainer
      (fst (match g with
            | (s, None) => (loadBooks_finally s, None)
            | (s, Some _) =>
                match loadBooks_catch clear query s with
                | (s', escaped) => (loadBooks_finally s', escaped)
                end
            end))
    = booksContainer
        (fst (match g' with
              | (s, None) => (loadBooks_finally s, None)
              | (s, Some _) =>
                  match loadBooks_catch clear query s with
                  | (s', escaped) => (loadBooks_finally s', escaped)
                  end
              end))).
  { intros [g o] [g' o'] Hg Ho. cbn [fst snd] in Hg, Ho. subst o'.
    destruct o as [e |]; [| exact Hg].
    specialize (Hcatch g g' Hg).
    destruct (loadBooks_catch clear query g),
             (loadBooks_catch clear query g'). exact Hcatch. }
  unfold loadBooks_rest. apply Hrest.
  - unfold loadBooks_try.
    destruct answer as [e | books]; [exact Hsame |].
    destruct (non_empty books) as [e | [|]]; [exact Hsame | |].
    + rewrite Hsame.
      destruct (displayBooks books clear (booksContainer st'))
        as [grid [e |]]; [reflexivity |].
      destruct (found_message books query); reflexivity.
    + destruct clear; [reflexivity | exact Hsame].
  - unfold loadBooks_try.
    destruct answer as [e | books]; [reflexivity |].
    destruct (non_empty books) as [e | [|]]; [reflexivity | |].
    + rewrite Hsame.
      destruct (displayBooks books clear (booksContainer st'))
        as [grid [e |]]; [reflexivity |].
      destruct (found_message books query); reflexivity.
    + reflexivity.
Qed.

End WithRuntime.

End GridProperties.

(** ** More on favourites *)

Module FavoriteInvariants.
Import FavoriteStore.

Lemma splice1_incl (index : nat) (l : list string) (x : string) :
  In x (splice1 index l) -> In x l.
Proof.
  revert index. induction l as [| y rest IH]; intros index H.
  - destruct index; contradiction.
  - destruct index as [| i]; cbn [splice1] in H.
    + now right.
    + destruct H as [-> | H]; [now left | right; eauto].
Qed.

Lemma splice1_NoDup (index : nat) (l : list string) :
  NoDup l -> NoDup (splice1 index l).
Proof.
  revert index. induction l as [| y rest IH]; intros index H.
  - destruct index; constructor.
  - inversion H as [| ? ? Hy Hrest]; subst.
    destruct index as [| i]; cbn [splice1]; [exact Hrest |].
    constructor; [| now apply IH].
    intros Hin. apply Hy. eapply splice1_incl, Hin.
Qed.

Lemma splice1_removes (bookId : string) (l : list string) (index : nat) :
  indexOf bookId l = Some index -> NoDup l ->
  ~ In bookId (splice1 index l).
Proof.
  revert index. induction l as [| y rest IH]; intros index H Hnd.
  - discriminate.
  - cbn [indexOf] in H. inversion Hnd as [| ? ? Hy Hrest]; subst.
    destruct (String.eqb_spec y bookId) as [-> | Hne].
    + injection H as <-. exact Hy.
    + destruct (indexOf bookId rest) as [i |] eqn:Hi; [| discriminate].
      injection H as <-. cbn. intros [Heq | Hin]; [contradiction |].
      exact (IH i eq_refl Hrest Hin).
Qed.

(** A toggle never stores an identifier twice: a persisted list without
    duplicates stays without duplicates. *)
Theorem toggle_keeps_no_duplicates (bookId : string) (st : state) :
  NoDup (favorites st) -> NoDup (favorites (toggleFavorite bookId st)).
Proof.
  intros Hnd. unfold toggleFavorite.
  destruct (icon_fas st); cbn [negb favorites bookFavorites].
  - destruct (indexOf bookId (favorites st)) as [index |]; [| exact Hnd].
    now apply splice1_NoDup.
  - destruct (includes_id bookId (favorites st)) eqn:Hin; cbn [negb];
      [exact Hnd |].
    apply NoDup_app; [exact Hnd | repeat constructor; intros [] | ].
    intros x Hx [<- | []].
    apply FavoriteProperties.includes_id_In in Hx. congruence.
Qed.

(** A toggle changes the membership of no other identifier; it stores the
    identifier when the button showed it un-favourited; on a list without
    duplicates it removes the identifier when the button showed it
    favourited. *)
Theorem toggle_touches_one_identifier (bookId : string) (st : state) :
  (forall x, x <> bookId ->
     (In x (favorites (toggleFavorite bookId st)) <-> In x (favorites st)))
  /\ (icon_fas st = false ->
      In bookId (favorites (toggleFavorite bookId st)))
  /\ (icon_fas st = true -> NoDup (favorites st) ->
      ~ In bookId (favorites (toggleFavorite bookId st))).
Proof.
  split; [| split].
  - intros x Hx. unfold toggleFavorite.
    destruct (icon_fas st); cbn [negb favorites bookFavorites].
    + destruct (indexOf bookId (favorites st)) as [index |] eqn:Hindex;
        [| reflexivity].
      rewrite (FavoriteProperties.splice1_members _ _ _ Hindex x). tauto.
    + destruct (includes_id bookId (favorites st));
        cbn [negb favorites bookFavorites]; [reflexivity |].
      rewrite in_app_iff. cbn. intuition congruence.
  - intros Hoff. rewrite (FavoriteProperties.toggle_from_off _ _ Hoff).
    cbn [favorites bookFavorites].
    destruct (includes_id bookId (favorites st)) eqn:Hin;
      cbn [negb favorites bookFavorites].
    + now apply FavoriteProperties.includes_id_In.
    + apply in_app_iff. right. now left.
  - intros Hon Hnd. rewrite (FavoriteProperties.toggle_from_on _ _ Hon).
    cbn [favorites bookFavorites].
    destruct (indexOf bookId (favorites st)) as [index |] eqn:Hindex.
    + now apply splice1_removes.
    + change (~ In bookId (favorites st)).
      apply FavoriteProperties.indexOf_none in Hindex.
      intros Hin. apply FavoriteProperties.includes_id_In in Hin.
      congruence.
Qed.

End FavoriteInvariants.

(** ** More on the controller *)

Module ControllerInvariants.
Import Controller Vocabulary Shapes.

Section WithRuntime.
Context {RT : Runtime}.

Lemma loadBooks_tidy (clear : bool) (st : state) :
  clear = Nat.eqb (currentPage st) 0 -> tidy st -> tidy (loadBooks clear st).
Proof.
  intros Hclear [Hquery Hreqs]. unfold loadBooks.
  destruct (isLoading st); [now split |].
  split; [exact Hquery |]. cbn [searches].
  apply Forall_app. split; [exact Hreqs |].
  constructor; [| constructor].
  split; [exact Hquery |]. exists (currentPage st). now split.
Qed.

Lemma remove_nth_Forall {A} (P : A -> Prop) (k : nat) (l : list A) :
  Forall P l -> Forall P (remove_nth k l).
Proof.
  revert k. induction l as [| x rest IH]; intros [| k] H; cbn;
    try constructor; inversion H; subst; auto.
Qed.

Lemma step_tidy (st : state) (ev : event) : tidy st -> tidy (step st ev).
Proof.
  intros Hst. pose proof Hst as [Hquery Hreqs].
  assert (Hsearch : forall input, tidy (handleSearch input st)).
  { intros input. unfold handleSearch. apply loadBooks_tidy; [reflexivity |].
    split; [| exact Hreqs]. cbn [currentSearchQuery].
    destruct (String.eqb_spec (trim input) ""); cbn [negb];
      [discriminate | assumption]. }
  destruct ev; cbn [step].
  - apply Hsearch.
  - apply Hsearch.
  - unfold loadMoreBooks. destruct (isLoading st); [exact Hst |].
    apply loadBooks_tidy; [reflexivity | now split].
  - exact Hst.
  - exact Hst.
  - unfold searchSettled.
    destruct (nth_error (searches st) k); [| exact Hst].
    split; [exact Hquery |]. now apply remove_nth_Forall.
  - unfold detailsSettled.
    destruct (nth_error (details st) k); [| exact Hst]. now split.
Qed.

(** After any sequence of events the current query is not empty, and
    every search in flight asks for a non-empty query at an offset that
    is a multiple of twelve, replacing the grid exactly when the offset
    is zero. *)
Theorem requests_are_well_formed (evs : list event) :
  currentSearchQuery (run evs) <> ""
  /\ Forall issued (searches (run evs)).
Proof.
  unfold run.
  assert (Hstart : tidy start).
  { apply loadBooks_tidy; [reflexivity |].
    split; [discriminate | constructor]. }
  revert Hstart. generalize start.
  induction evs as [| ev rest IH]; intros st Hst; cbn [fold_left].
  - exact Hst.
  - apply IH, step_tidy, Hst.
Qed.

(** A search submitted while a load is in flight starts no request: the
    query and the page are taken over and the grid is cleared, but the
    request in flight is still the one for the earlier query. *)
Theorem search_while_loading_starts_nothing (st : state) (input : string) :
  isLoading st = true ->
  let st' := step st (SearchClick input) in
  searches st' = searches st
  /\ isLoading st' = true
  /\ booksContainer st' = []
  /\ currentPage st' = 0
  /\ currentSearchQuery st'
     = (if String.eqb (trim input) "" then "harry potter" else trim input).
Proof.
  intros Hflag. cbn [step]. unfold handleSearch, loadBooks.
  cbn [isLoading]. rewrite Hflag. cbn.
  repeat split. now destruct (String.eqb (trim input) "").
Qed.

(** [getBookDetails] always returns a book record. *)
(** The children the controller shows once a search has settled are
    those [Grid.loadBooks_rest] leaves on any page that showed the same
    children before. *)
Lemma rendered_on_any_page
    (answer : result value) (req : search_request) (st : state)
    (page : Grid.state) :
  Grid.booksContainer page = booksContainer st ->
  rendered answer req st
  = Grid.booksContainer
      (fst (Grid.loadBooks_rest answer (clearContainer req)
              (currentSearchQuery st) page)).
Proof.
  intros Hpage. unfold rendered.
  apply GridProperties.loadBooks_rest_children. now rewrite Hpage.
Qed.

Lemma getBookDetails_record work_fetch author_fetch bookId :
  exists rec,
    BooksAPI.getBookDetails work_fetch author_fetch bookId = inr rec
    /\ is_book_record rec = true.
Proof.
  unfold BooksAPI.getBookDetails.
  destruct (BooksAPI.getBookDetails_try work_fetch author_fetch bookId)
    as [e | rec] eqn:Htry.
  - destruct (DetailRecords.details_fallback_sample bookId)
      as (book & Hbook & _).
    exists (BooksAPI.book_value book).
    split; [rewrite <- Hbook; reflexivity | reflexivity].
  - exists rec. split; [reflexivity |].
    eapply DetailsProperties.getBookDetails_try_is_record, Htry.
Qed.

Lemma run_app (evs evs' : list event) :
  run (evs ++ evs') = fold_left step evs' (run evs).
Proof. unfold run. apply fold_left_app. Qed.

(** Closing the modal does not cancel a detail fetch: when a fetch that
    was started before the modal was closed settles, the current book is
    set again, to a book record. *)
Theorem late_details_set_the_book_again
    (evs : list event) (bookId : string)
    (work_fetch : string -> fetch_outcome)
    (author_fetch : nat -> string -> fetch_outcome) :
  let opened := run (evs ++ [ViewBookClick bookId]) in
  let closed := step opened CloseModalClick in
  let settled :=
    step closed
      (DetailsSettled (List.length (details (run evs))) work_fetch
         author_fetch) in
  currentBook closed = VNull
  /\ details closed = (details (run evs) ++ [bookId])%list
  /\ is_book_record (currentBook settled) = true
  /\ details settled = details (run evs).
Proof.
  cbv zeta. rewrite run_app. cbn [fold_left step].
  unfold closeModal, openBookModal. cbn [currentBook details].
  split; [reflexivity |]. split; [reflexivity |].
  unfold detailsSettled. cbn [details currentBook].
  assert (Hnth : nth_error (details (run evs) ++ [bookId])
                   (List.length (details (run evs))) = Some bookId).
  { rewrite nth_error_app2 by lia. now rewrite Nat.sub_diag. }
  rewrite Hnth. cbn [currentBook details].
  destruct (getBookDetails_record work_fetch author_fetch bookId)
    as (rec & -> & Hrec).
  split; [exact Hrec |].
  clear. induction (details (run evs)) as [| d rest IH]; cbn;
    [reflexivity | now rewrite IH].
Qed.

End WithRuntime.

End ControllerInvariants.

(** ** The properties on concrete runs *)

Module Runs.
Import BooksAPI GeminiAPI.
Import Vocabulary Inputs.
Import SearchProperties DetailsProperties QuestionProperties.

#[local] Existing Instance AsciiRuntime.runtime.

(** The scenario of the specification: one document for "harry potter",
    with a cover identifier. *)
Example search_one_document :
  exists rec,
    searchBooks
      (fun _ => one_document
         (VObj [ ("key", VStr "/works/OL82565W");
                 ("title", VStr "Harry Potter and the Philosopher's Stone");
                 ("author_name", VArr [VStr "J.K. Rowling"]);
                 ("cover_i", VNum 10514553%Q) ]))
      "harry potter" 0%Q 12%Q = inr (VArr [rec])
    /\ get rec "title"
       = inr (VStr "Harry Potter and the Philosopher's Stone")
    /\ get rec "authors" = inr (VArr [VStr "J.K. Rowling"])
    /\ get rec "thumbnail"
       = inr (VStr "https://covers.openlibrary.org/b/id/10514553-M.jpg")
    /\ get rec "categories" = inr (VArr [VStr "General"]).
Proof. eexists. split; [vm_compute; reflexivity |]. now vm_compute. Qed.

(** The address of the first search and of the search "load more" starts
    after it. *)
Example load_more_asks_for_page_one :
  map (fun req =>
         (Controller.startIndex req,
          search_url (Controller.query req) (Controller.startIndex req) 12%Q))
    (Controller.searches
       (Controller.run
          [ Controller.SearchSettled 0 (fun _ => Rejected);
            Controller.LoadMoreClick ]))
  = [ (12%Q,
       inr "https://openlibrary.org/search.json?q=harry%20potter&page=1&limit=12") ]
  /\ search_url "harry potter" 0%Q 12%Q
     = inr "https://openlibrary.org/search.json?q=harry%20potter&page=1&limit=12".
Proof. split; vm_compute; reflexivity. Qed.


(** With the network down, "ROWLING" finds the sample and "tolkien"
    finds nothing. *)
Example fallback_for_two_queries :
  searchBooks (fun _ => Rejected) "ROWLING" 0%Q 12%Q
  = inr (books_value allBooks)
  /\ allBooks <> []
  /\ searchBooks (fun _ => Rejected) "tolkien" 0%Q 12%Q = inr (VArr []).
Proof.
  split; [vm_compute; reflexivity |].
  split; [discriminate | vm_compute; reflexivity].
Qed.

(** C5.  The lookup of an author that is answered with status 404 and a
    body that names the author is a failed lookup, and the author is not
    degraded to the placeholder: the lookup never reads the status, so
    the name of the body is taken, while the same lookup rejected gives
    the placeholder. *)
Theorem failed_lookup_with_a_name_is_resolved :
  lookup_failed
    (MoreInputs.gaiman_with_status false 404%Q 0
       (author_url (VStr "/authors/OL2A"))) = true
  /\ author_lookup (MoreInputs.gaiman_with_status false 404%Q) 0
       MoreInputs.gaiman_ref
     = inr (VObj [ ("name", VStr "Neil Gaiman");
                   ("bio", VStr "No biography available");
                   ("birth_date", VStr "Unknown") ])
  /\ author_lookup (fun _ _ => Rejected) 0 MoreInputs.gaiman_ref
     = inr placeholder_author
  /\ exists rec,
       getBookDetails (fun _ => Responded MoreInputs.one_author_response)
         (MoreInputs.gaiman_with_status false 404%Q) "OL453936W" = inr rec
       /\ get rec "authors" = inr (VArr [VStr "Neil Gaiman"])
       /\ get rec "authorDetails"
          = inr (VArr [ VObj [ ("name", VStr "Neil Gaiman");
                               ("bio", VStr "No biography available");
                               ("birth_date", VStr "Unknown") ] ]).
Proof.
  split; [reflexivity |]. split; [reflexivity |]. split; [reflexivity |].
  eexists. split; [vm_compute; reflexivity |]. now vm_compute.
Qed.


(** What [getBookDetails] returns on that work. *)
Example two_author_details :
  exists rec,
    getBookDetails (fun _ => Responded two_author_response)
      second_author_only "/works/OL453936W" = inr rec
    /\ get rec "id" = inr (VStr "OL453936W")
    /\ get rec "authors"
       = inr (VArr [VStr "Unknown Author"; VStr "Neil Gaiman"])
    /\ get rec "authorDetails"
       = inr (VArr [ placeholder_author;
                     VObj [ ("name", VStr "Neil Gaiman");
                            ("bio", VStr "No biography available");
                            ("birth_date", VStr "Unknown") ] ]).
Proof. eexists. split; [vm_compute; reflexivity |]. now vm_compute. Qed.



(** The fallback text for the sample book, in full. *)
Example sample_fallback_text :
  generateFallbackResponse harry_potter "What is it about?"
  = inr (lines
      [ "I'm analyzing " ++ dq ++ "Harry Potter and the Philosopher's Stone"
          ++ dq ++ " by J.K. Rowling based on OpenLibrary data.";
        "";
        "Question: " ++ dq ++ "What is it about?" ++ dq;
        "";
        "OpenLibrary Book Data Available:";
        "• Title: Harry Potter and the Philosopher's Stone";
        "• Authors: J.K. Rowling";
        "• Published: 1997";
        "• Description: Harry Potter discovers he is a wizard and begins his education at Hogwarts School of Witchcraft and Wizardry.";
        "• Categories: Fantasy, Fiction";
        "";
        "";
        "Based on the OpenLibrary data, this book appears to be about: Harry Potter discovers he is a wizard and begins his education at Hogwarts School of Witchcraft and Wizardry..";
        "";
        "For more specific answers, the complete book would provide additional details." ]).
Proof. vm_compute. reflexivity. Qed.

(** The bodies the failure taxonomy names are failed calls. *)
Example failed_calls :
  call_failed Rejected = true
  /\ call_failed (Responded {| ok := false; status := 500%Q;
                               body := Some (VObj []) |}) = true
  /\ call_failed (Responded {| ok := true; status := 200%Q;
                               body := None |}) = true
  /\ call_failed (Responded {| ok := true; status := 200%Q;
                               body := Some (VObj []) |}) = true
  /\ call_failed (Responded {| ok := true; status := 200%Q;
                               body := Some (VObj [("candidates", VArr [])])
                            |}) = true.
Proof. repeat split. Qed.

(** C7 on the sample book, which has no subjects, no first sentence and
    no excerpts: the claim fails on its subjects section. *)
Lemma sample_prompt_keeps_subjects_section :
  get harry_potter "subjects" = inr VUndefined
  /\ get harry_potter "firstSentence" = inr VUndefined
  /\ get harry_potter "excerpts" = inr VUndefined
  /\ exists infoLines prompt,
       bookInfo_lines harry_potter = inr infoLines
       /\ In "SUBJECTS: No subjects available" infoLines
       /\ createPrompt harry_potter "What is it about?" = inr prompt
       /\ includes prompt "SUBJECTS: No subjects available" = true.
Proof.
  repeat (split; [reflexivity |]).
  exists (match bookInfo_lines harry_potter with
          | inr l => l
          | inl _ => []
          end).
  exists (match createPrompt harry_potter "What is it about?" with
          | inr p => p
          | inl _ => ""
          end).
  split; [vm_compute; reflexivity |].
  split; [vm_compute; tauto |].
  split; vm_compute; reflexivity.
Qed.

(** C7, as the code has it, on the sample book. *)
Lemma prompt_sections_witness :
  exists infoLines,
    bookInfo_lines (VObj harry_potter_props) = inr infoLines
    /\ createPrompt (VObj harry_potter_props) "What is it about?"
       = inr (prompt_text (trim (lines infoLines)) "What is it about?")
    /\ (forall line, In line infoLines ->
          prefix "FIRST SENTENCE:" line = false
          /\ prefix "BOOK EXCERPTS:" line = false)
    /\ (exists line, In line infoLines /\ prefix "SUBJECTS: " line = true)
    /\ (truthy (assoc "subjects" harry_potter_props) = false ->
        In "SUBJECTS: No subjects available" infoLines).
Proof.
  apply (prompt_sections_for_empty_fields harry_potter_props
           "What is it about?"); reflexivity.
Defined.

(** C8 after a reload: the identifier is stored, the button shows it as
    no favourite, and two toggles remove it. *)
Lemma double_toggle_loses_stored_favorite :
  let st := {| FavoriteStore.icon_fas := false;
               FavoriteStore.bookFavorites := Some ["OL82565W"] |} in
  FavoriteStore.favorites st = ["OL82565W"]
  /\ FavoriteStore.favorites
       (FavoriteStore.toggleFavorite "OL82565W"
          (FavoriteStore.toggleFavorite "OL82565W" st)) = [].
Proof. split; reflexivity. Qed.

(** C8, as the code has it, from an empty store. *)
Lemma double_toggle_witness :
  let st := {| FavoriteStore.icon_fas := false;
               FavoriteStore.bookFavorites := None |} in
  (forall x,
     In x (FavoriteStore.favorites
             (FavoriteStore.toggleFavorite "OL82565W"
                (FavoriteStore.toggleFavorite "OL82565W" st)))
     <-> In x (FavoriteStore.favorites st))
  /\ FavoriteStore.icon_fas
       (FavoriteStore.toggleFavorite "OL82565W"
          (FavoriteStore.toggleFavorite "OL82565W" st))
     = FavoriteStore.icon_fas st
  /\ (FavoriteStore.icon_fas st = false ->
      FavoriteStore.favorites
        (FavoriteStore.toggleFavorite "OL82565W"
           (FavoriteStore.toggleFavorite "OL82565W" st))
      = FavoriteStore.favorites st).
Proof.
  apply (FavoriteProperties.double_toggle_restores_consistent "OL82565W"
           {| FavoriteStore.icon_fas := false;
              FavoriteStore.bookFavorites := None |}).
  reflexivity.
Defined.

(** C9 while the first search is in flight: the flag is set, and a click
    on "View Details" starts a detail fetch all the same. *)
Lemma detail_fetch_starts_while_loading :
  Controller.isLoading (Controller.run []) = true
  /\ Controller.loads_in_flight (Controller.run []) = 1
  /\ Controller.isLoading
       (Controller.run [Controller.ViewBookClick "OL82565W"]) = true
  /\ Controller.details
       (Controller.run [Controller.ViewBookClick "OL82565W"]) = ["OL82565W"]
  /\ Controller.loads_in_flight
       (Controller.run [Controller.ViewBookClick "OL82565W"]) = 2.
Proof. repeat split. Qed.

(** The record [searchBooks] builds for the document with four
    subjects keeps three of them. *)
Lemma search_categories_witness :
  let rec := match search_record 0 doc_with_subjects with
             | inr rec => rec
             | inl _ => VUndefined
             end in
  (forall l, four_subjects = VArr l ->
     get rec "categories" = inr (VArr (firstn 3 l))
     /\ List.length (firstn 3 l) <= 3)
  /\ (truthy four_subjects = false ->
      get rec "categories" = inr (VArr [VStr "General"])).
Proof.
  apply (search_categories 0 doc_with_subjects _ four_subjects);
    vm_compute; reflexivity.
Defined.

(** The record [getBookDetails] builds for the work with four subjects
    keeps all four, five being the bound. *)
Lemma details_categories_witness :
  let rec := match details_record "OL1W" work_with_subjects VNull
                     (VArr []) (VArr []) with
             | inr rec => rec
             | inl _ => VUndefined
             end in
  (forall l, four_subjects = VArr l ->
     get rec "categories" = inr (VArr (firstn 5 l))
     /\ List.length (firstn 5 l) <= 5)
  /\ (truthy four_subjects = false ->
      get rec "categories" = inr (VArr [VStr "General"])).
Proof.
  apply (details_categories "OL1W" work_with_subjects VNull
           (VArr []) (VArr []) _ four_subjects);
    vm_compute; reflexivity.
Defined.

(** C10.  For a document whose subject list is empty [searchBooks] builds
    a record with no category at all, and so does [getBookDetails] for a
    work whose subject list is empty: the ['General'] default is not
    applied. *)
Theorem empty_subject_list_gives_no_category :
  (exists rec,
     searchBooks (fun _ => one_document doc_without_subjects) "t" 0%Q 12%Q
     = inr (VArr [rec])
     /\ get rec "categories" = inr (VArr []))
  /\ (exists rec,
        getBookDetails (fun _ => work_without_subjects)
          (fun _ _ => Rejected) "OL1W" = inr rec
        /\ get rec "categories" = inr (VArr [])).
Proof.
  split; eexists; (split; [vm_compute; reflexivity |]); now vm_compute.
Qed.

End Runs.

(** ** The further properties on concrete runs *)

Module FurtherRuns.
Import BooksAPI GeminiAPI.
Import Vocabulary Shapes Inputs MoreInputs.

#[local] Existing Instance AsciiRuntime.runtime.

(** The record of a document that has a title only. *)
Lemma search_record_never_blank_witness :
  filled record_without_key "id" /\ filled record_without_key "title"
  /\ filled record_without_key "authors"
  /\ filled record_without_key "publishedDate"
  /\ filled record_without_key "description"
  /\ filled record_without_key "previewLink".
Proof.
  apply (SearchRecords.search_record_never_blank 3 doc_without_key
           record_without_key).
  reflexivity.
Defined.

(** The same record: its identifier is its position. *)
Lemma search_record_without_key_witness :
  get record_without_key "id" = inr (VStr "book-3")
  /\ get record_without_key "previewLink"
     = inr (VStr "https://openlibrary.orgundefined").
Proof.
  exact (SearchRecords.search_record_without_key 3 doc_without_key
           record_without_key eq_refl eq_refl).
Defined.

(** The record of a work and the address of its details. *)
Lemma search_record_links_to_details_witness :
  get record_with_subjects "id" = inr (VStr "/works/OL82565W")
  /\ get record_with_subjects "previewLink"
     = inr (VStr "https://openlibrary.org/works/OL82565W")
  /\ clean_id "/works/OL82565W" = "OL82565W"
  /\ details_url "/works/OL82565W"
     = "https://openlibrary.org/works/OL82565W.json".
Proof.
  apply (SearchRecords.search_record_links_to_details 0 doc_with_subjects
           record_with_subjects "OL82565W"); reflexivity.
Defined.


(** The work with two authors, the first lookup failing. *)
Lemma author_names_line_up_witness :
  (VArr [VStr "Unknown Author"; VStr "Neil Gaiman"]
   = VArr [VStr "Unknown Author"]
   /\ VArr [ placeholder_author;
             VObj [ ("name", VStr "Neil Gaiman");
                    ("bio", VStr "No biography available");
                    ("birth_date", VStr "Unknown") ] ] = VArr [])
  \/ exists refs names details,
       get two_author_work "authors" = inr (VArr refs)
       /\ refs <> []
       /\ VArr [VStr "Unknown Author"; VStr "Neil Gaiman"] = VArr names
       /\ VArr [ placeholder_author;
                 VObj [ ("name", VStr "Neil Gaiman");
                        ("bio", VStr "No biography available");
                        ("birth_date", VStr "Unknown") ] ] = VArr details
       /\ List.length names = List.length refs
       /\ List.length details = List.length refs
       /\ forall i detail,
            nth_error details i = Some detail ->
            exists name,
              nth_error names i = Some name
              /\ get detail "name" = inr name
              /\ truthy name = true.
Proof.
  apply (DetailRecords.author_names_line_up second_author_only
           two_author_work).
  reflexivity.
Defined.

(** An author answered with status 404 and a readable body. *)
Lemma author_lookup_ignores_status_witness :
  author_lookup (gaiman_with_status true 200%Q) 0 gaiman_ref
  = author_lookup (gaiman_with_status false 404%Q) 0 gaiman_ref.
Proof.
  apply (DetailRecords.author_lookup_ignores_status
           (gaiman_with_status true 200%Q)
           (gaiman_with_status false 404%Q) 0 gaiman_ref).
  intros url. reflexivity.
Defined.


(** A question about the sample book, answered. *)
Lemma answer_on_success_witness :
  askQuestionAboutBook (fun _ => Responded one_candidate_response)
    (VObj harry_potter_props) "What is it about?"
  = inr "A boy wizard.".
Proof.
  apply (Answers.answer_on_success
           (fun _ => Responded one_candidate_response) harry_potter_props
           "What is it about?" sample_prompt one_candidate_response
           one_candidate "A boy wizard."); reflexivity.
Defined.

(** A book whose description is an object, with the network up. *)
Lemma odd_description_forces_fallback_witness :
  askQuestionAboutBook (fun _ => Responded one_candidate_response)
    (VObj nested_description_props) "What is it about?"
  = generateFallbackResponse (VObj nested_description_props)
      "What is it about?".
Proof.
  apply (Answers.odd_description_forces_fallback
           (fun _ => Responded one_candidate_response)
           nested_description_props "What is it about?").
  reflexivity.
Defined.

(** A second favourite. *)
Lemma toggle_keeps_no_duplicates_witness :
  NoDup
    (FavoriteStore.favorites
       (FavoriteStore.toggleFavorite "OL2W"
          {| FavoriteStore.icon_fas := false;
             FavoriteStore.bookFavorites := Some ["OL1W"] |})).
Proof.
  apply (FavoriteInvariants.toggle_keeps_no_duplicates "OL2W"
           {| FavoriteStore.icon_fas := false;
              FavoriteStore.bookFavorites := Some ["OL1W"] |}).
  cbn. constructor; [intros [] | constructor].
Defined.

(** A search for "dune" while the first search is in flight. *)
Lemma search_while_loading_starts_nothing_witness :
  let st' := Controller.step Controller.start (Controller.SearchClick "dune") in
  Controller.searches st' = Controller.searches Controller.start
  /\ Controller.isLoading st' = true
  /\ Controller.booksContainer st' = []
  /\ Controller.currentPage st' = 0
  /\ Controller.currentSearchQuery st' = "dune".
Proof.
  exact (ControllerInvariants.search_while_loading_starts_nothing
           Controller.start "dune" eq_refl).
Defined.


(** "Load more" for a query no sample matches, with the network down. *)
Lemma nothing_found_witness :
  Grid.loadBooks_rest (searchBooks (fun _ => Rejected) "zzz" 12%Q 12%Q)
    false "zzz" loading_more_grid
  = ({| Grid.booksContainer := [Grid.Card "<div>first</div>"];
        Grid.loadMoreShown := false;
        Grid.loadMoreDisabled := false;
        Grid.booksLoading := false;
        Grid.notifications := [] |},
      None).
Proof.
  apply (GridProperties.nothing_found (fun _ => Rejected) "zzz" 12%Q 12%Q
           false "zzz" loading_more_grid).
  - intros url _. reflexivity.
  - reflexivity.
Defined.

(** "Load more" answered with a record whose authors are a string. *)
Lemma unrenderable_book_shows_samples_witness :
  exists rendered sampleCards,
    Grid.loadBooks_rest (inr (VArr [record_with_subjects;
                                    string_author_record]))
      false "harry" loading_more_grid
    = ({| Grid.booksContainer :=
            (Grid.Card "<div>first</div>" :: map Grid.Card rendered
             ++ map Grid.Card sampleCards)%list;
          Grid.loadMoreShown := true;
          Grid.loadMoreDisabled := false;
          Grid.booksLoading := false;
          Grid.notifications := [(Grid.error_notice, "error")] |},
        None)
    /\ List.length rendered < 2
    /\ List.length sampleCards = List.length (getSampleBooks "harry")
    /\ map Grid.createBookCard
         (firstn (List.length rendered)
            [record_with_subjects; string_author_record])
       = map inr rendered
    /\ (exists bad e,
          nth_error [record_with_subjects; string_author_record]
            (List.length rendered) = Some bad
          /\ Grid.createBookCard bad = inl e)
    /\ map Grid.createBookCard (map book_value (getSampleBooks "harry"))
       = map inr sampleCards.
Proof.
  refine (GridProperties.unrenderable_book_shows_samples
            [record_with_subjects; string_author_record] false "harry"
            loading_more_grid _).
  reflexivity.
Defined.

End FurtherRuns.
